(** * ClubhouseClient: request construction, dispatch and pagination

    A shallow embedding of [clubhouse/api.py].  Python strings are modelled
    as [string] (one [ascii] per code point below 256), integers as [Z],
    variadic [*segments] as a list, and the side effects of [_request]
    (the call to [requests.request] and the call to [logger.error]) as
    explicit state passing over a [World]. *)

From Stdlib Require Import String Ascii List ZArith Bool Lia.
From Stdlib Require Import DecimalString.
Import ListNotations.

Local Open Scope string_scope.
Local Open Scope Z_scope.

Set Warnings "-register-all".

(** ** Python string primitives used by the client *)

Module PyStr.

Definition is_empty (s : string) : bool :=
  match s with
  | EmptyString => true
  | String _ _ => false
  end.

(** [s.startswith(p)] *)
Fixpoint startswith (s p : string) {struct p} : bool :=
  match p with
  | EmptyString => true
  | String b p' =>
      match s with
      | EmptyString => false
      | String a s' => Ascii.eqb a b && startswith s' p'
      end
  end.

(** [s.endswith(c)] for a one-character [c] *)
Fixpoint endswith_char (s : string) (c : ascii) : bool :=
  match s with
  | EmptyString => false
  | String a EmptyString => Ascii.eqb a c
  | String _ r => endswith_char r c
  end.

(** [s.lstrip(c)] for a one-character [c] *)
Fixpoint lstrip (c : ascii) (s : string) : string :=
  match s with
  | EmptyString => EmptyString
  | String a r => if Ascii.eqb a c then lstrip c r else s
  end.

(** [s.rstrip(c)] for a one-character [c] *)
Fixpoint rstrip (c : ascii) (s : string) : string :=
  match s with
  | EmptyString => EmptyString
  | String a r =>
      let r' := rstrip c r in
      if Ascii.eqb a c && is_empty r' then EmptyString else String a r'
  end.

(** [s.strip(c)] for a one-character [c] *)
Definition strip (c : ascii) (s : string) : string := rstrip c (lstrip c s).

(** [str(n)] for an [int] *)
Definition str_of_int (n : Z) : string := NilZero.string_of_int (Z.to_int n).

(** [s.split(c, 1)] when [c] occurs in [s]: the text before and after the
    first occurrence; [None] when [c] does not occur. *)
Fixpoint split_once (c : ascii) (s : string) : option (string * string) :=
  match s with
  | EmptyString => None
  | String a r =>
      if Ascii.eqb a c then Some (EmptyString, r)
      else match split_once c r with
           | Some (x, y) => Some (String a x, y)
           | None => None
           end
  end.

(** [c in s] for a one-character [c] *)
Definition contains_char (c : ascii) (s : string) : bool :=
  match split_once c s with Some _ => true | None => false end.

Fixpoint remove_chars (bad : ascii -> bool) (s : string) : string :=
  match s with
  | EmptyString => EmptyString
  | String a r => if bad a then remove_chars bad r else String a (remove_chars bad r)
  end.

(** Number of (possibly overlapping) occurrences of [p] in [s]. *)
Fixpoint occurrences (p s : string) : nat :=
  match s with
  | EmptyString => if is_empty p then 1%nat else 0%nat
  | String _ r => ((if startswith s p then 1 else 0) + occurrences p r)%nat
  end.

End PyStr.

(** ** [os.path.join] (POSIX flavour) and [urllib.parse.urlparse] *)

Module PyLib.
Import PyStr.

(** One iteration of the loop of [posixpath.join]: an absolute component
    resets the path, otherwise components are glued with one separator. *)
Definition join_step (path b : string) : string :=
  if startswith b "/" then b
  else if is_empty path || endswith_char path "/" then path ++ b
  else path ++ "/" ++ b.

Definition path_join (a : string) (p : list string) : string :=
  fold_left join_step p a.

Definition unsafe_url_char (a : ascii) : bool :=
  Ascii.eqb a "009" || Ascii.eqb a "010" || Ascii.eqb a "013".

(** [urlparse(url)[4]], the query component.  [urlsplit] drops tab, CR and
    LF, peels off the scheme and the network location (neither can contain
    [?] or [#]), cuts the fragment at the first [#], and takes as query
    the text after the first [?] of what is left. *)
Definition urlparse_query (url : string) : string :=
  let u := remove_chars unsafe_url_char url in
  let u := match split_once "#" u with Some (x, _) => x | None => u end in
  match split_once "?" u with Some (_, q) => q | None => EmptyString end.

End PyLib.

(** ** JSON values and [json.dumps] *)

Module Json.
Import PyStr.

(** The payloads the client serialises: [None], booleans, integers,
    strings, lists and dictionaries with string keys (in insertion
    order). *)
Inductive json : Type :=
| JNull
| JBool (b : bool)
| JInt (n : Z)
| JStr (s : string)
| JList (l : list json)
| JDict (kvs : list (string * json)).

Definition quote : ascii := "034".
Definition backslash : ascii := "092".

Definition hex_digit (n : N) : ascii :=
  match n with
  | 0%N => "0" | 1%N => "1" | 2%N => "2" | 3%N => "3"
  | 4%N => "4" | 5%N => "5" | 6%N => "6" | 7%N => "7"
  | 8%N => "8" | 9%N => "9" | 10%N => "a" | 11%N => "b"
  | 12%N => "c" | 13%N => "d" | 14%N => "e" | _ => "f"
  end%char.

(** The replacement table of [json.encoder.py_encode_basestring_ascii]:
    the quote and the backslash are escaped, printable ASCII is kept, the
    usual control characters have short escapes, and everything else is
    written as a four-digit lowercase hexadecimal escape. *)
Definition escape_char (a : ascii) : string :=
  let n := N_of_ascii a in
  if Ascii.eqb a quote then String backslash (String quote EmptyString)
  else if Ascii.eqb a backslash then String backslash (String backslash EmptyString)
  else if Ascii.eqb a "008" then String backslash "b"
  else if Ascii.eqb a "012" then String backslash "f"
  else if Ascii.eqb a "010" then String backslash "n"
  else if Ascii.eqb a "013" then String backslash "r"
  else if Ascii.eqb a "009" then String backslash "t"
  else if ((32 <=? n) && (n <=? 126))%N then String a EmptyString
  else String backslash
         (String "u" (String "0" (String "0"
            (String (hex_digit (n / 16)) (String (hex_digit (n mod 16)) EmptyString))))).

Fixpoint escape_body (s : string) : string :=
  match s with
  | EmptyString => EmptyString
  | String a r => escape_char a ++ escape_body r
  end.

Definition encode_basestring_ascii (s : string) : string :=
  String quote (escape_body s ++ String quote EmptyString).

(** [json.dumps(v)] with the default separators. *)
Fixpoint dumps (v : json) : string :=
  match v with
  | JNull => "null"
  | JBool true => "true"
  | JBool false => "false"
  | JInt n => str_of_int n
  | JStr s => encode_basestring_ascii s
  | JList l => "[" ++ String.concat ", " (map dumps l) ++ "]"
  | JDict kvs =>
      "{" ++ String.concat ", "
               (map (fun kv => let '(k, x) := kv in
                               encode_basestring_ascii k ++ ": " ++ dumps x) kvs)
          ++ "}"
  end.

End Json.

(** ** The client *)

Module Clubhouse.
Import PyStr PyLib Json.

Definition ENDPOINT_HOST : string := "https://api.clubhouse.io".
Definition ENDPOINT_PATH : string := "/api/v3".

(** A path segment as callers pass it: a string, or an identifier that is
    an [int]. *)
Inductive Seg : Type :=
| SStr (s : string)
| SInt (n : Z).

(** [str(s)] *)
Definition str (s : Seg) : string :=
  match s with
  | SStr x => x
  | SInt n => str_of_int n
  end.

(** A segment seen as a Python value, for the places where a segment is
    bound to the [data] parameter. *)
Definition seg_value (s : Seg) : json :=
  match s with
  | SStr x => JStr x
  | SInt n => JInt n
  end.

(** Passthrough transport options ([**kwargs]): option names with opaque
    values, other than the names [_request] and [requests.request] bind
    themselves. *)
Definition Kwargs : Type := list (string * string).

(** What [requests.request] is called with. *)
Record Request : Type := mkRequest {
  rq_method : string;
  rq_url : string;
  rq_headers : list (string * string);
  rq_data : string;
  rq_kwargs : Kwargs
}.

(** What the client reads off a [requests.Response]: [status_code],
    [text], the value [json()] decodes ([None] when the body is not JSON)
    and the [next] attribute, a cursor that [_list_items] passes on as a
    path segment, or [None]. *)
Record Response : Type := mkResponse {
  status_code : Z;
  text : string;
  decoded : option json;
  next : option string
}.

Inductive Exn : Type :=
| IndexError
| AttributeError (type attr : string)
| TypeError (msg : string)
| JSONDecodeError
| HTTPError (response : Response)
| TransportError (msg : string).

(** The value [_request] returns: the literal [{}] or the response. *)
Inductive Result : Type :=
| EmptyDict
| Raw (r : Response).

(** The observable effects: the calls made to [requests.request] and the
    messages given to [logger.error], oldest first. *)
Record World : Type := mkWorld {
  calls : list Request;
  log : list string
}.

Definition empty_world : World := mkWorld [] [].

Inductive Outcome (A : Type) : Type :=
| Returns (a : A)
| Raises (e : Exn)
| OutOfFuel.
Arguments Returns {A} a.
Arguments Raises {A} e.
Arguments OutOfFuel {A}.

(** Computations of the client: state passing over the [World], with
    exceptions. *)
Definition M (A : Type) : Type := World -> Outcome A * World.

Definition ret {A} (a : A) : M A := fun w => (Returns a, w).
Definition raise {A} (e : Exn) : M A := fun w => (Raises e, w).
Definition out_of_fuel {A} : M A := fun w => (OutOfFuel, w).

Definition bind {A B} (m : M A) (k : A -> M B) : M B :=
  fun w =>
    match m w with
    | (Returns a, w') => k a w'
    | (Raises e, w') => (Raises e, w')
    | (OutOfFuel, w') => (OutOfFuel, w')
    end.

Notation "x <- m ;; k" := (bind m (fun x => k))
  (at level 61, m at next level, right associativity).
Notation "m ;;; k" := (bind m (fun _ => k))
  (at level 61, right associativity).

Definition lift {A} (r : Exn + A) : M A :=
  match r with
  | inl e => raise e
  | inr a => ret a
  end.

Definition logger_error (msg : string) : M unit :=
  fun w => (Returns tt, mkWorld (calls w) (log w ++ [msg])).

Record ClubhouseClient : Type := mkClient {
  ignored_status_codes : list Z;
  api_key : string
}.

(** [__init__]: [ignored_status_codes or []] *)
Definition init (key : string) (ignored : option (list Z)) : ClubhouseClient :=
  mkClient (match ignored with Some l => l | None => [] end) key.

(** [code in self.ignored_status_codes] *)
Definition is_ignored (self : ClubhouseClient) (code : Z) : bool :=
  existsb (Z.eqb code) (ignored_status_codes self).

(** Lines 54-57 of [_request]: the prefix test on [segments[0]] and the
    join.  [segments[0]] raises on an empty tuple, and [startswith] is
    looked up on the segment as it was passed. *)
Definition anchor (segments : list Seg) : Exn + list Seg :=
  match segments with
  | [] => inl IndexError
  | SInt _ :: _ => inl (AttributeError "int" "startswith")
  | SStr s0 :: _ =>
      if negb (startswith s0 ENDPOINT_PATH)
      then inr (SStr ENDPOINT_PATH :: segments)
      else inr segments
  end.

Definition join_segments (segments : list Seg) : string :=
  path_join ENDPOINT_HOST (map (fun s => strip "/" (str s)) segments).

Definition build_url (segments : list Seg) : Exn + string :=
  match anchor segments with
  | inl e => inl e
  | inr segs => inr (join_segments segs)
  end.

(** Line 61 and the f-string of line 68. *)
Definition token_prefix (url : string) : string :=
  if negb (is_empty (urlparse_query url)) then "&" else "?".

Definition with_token (self : ClubhouseClient) (url : string) : string :=
  url ++ token_prefix url ++ "token=" ++ api_key self.

(** Lines 54-70: everything [requests.request] is called with. *)
Definition prepare (self : ClubhouseClient) (method : string) (data : json)
    (segments : list Seg) (kwargs : Kwargs) : Exn + Request :=
  match build_url segments with
  | inl e => inl e
  | inr url =>
      let headers := [("Content-Type", "application/json")] in
      let data := dumps data in
      inr (mkRequest method (with_token self url) headers data kwargs)
  end.

(** [Response.raise_for_status] of the requests library: an [HTTPError]
    holding the response for the client-error and server-error ranges,
    nothing otherwise. *)
Definition raise_for_status (r : Response) : M unit :=
  if ((400 <=? status_code r) && (status_code r <? 500))
     || ((500 <=? status_code r) && (status_code r <? 600))
  then raise (HTTPError r)
  else ret tt.

Definition error_message (r : Response) : string :=
  "Status code: " ++ str_of_int (status_code r) ++ ", Content: " ++ text r.

(** Lines 71-82 of [_request]. *)
Definition classify (self : ClubhouseClient) (response : Response) : M Result :=
  (if (299 <? status_code response) && negb (is_ignored self (status_code response))
   then logger_error (error_message response) ;;; raise_for_status response
   else ret tt) ;;;
  if status_code response =? 204 then ret EmptyDict else ret (Raw response).

Section Transport.

(** [requests.request] as the client sees it: given the calls made so far
    and the present call, a response or a raised transport failure. *)
Variable requests_request : list Request -> Request -> Exn + Response.

Definition send (rq : Request) : M Response :=
  fun w =>
    let w' := mkWorld (calls w ++ [rq]) (log w) in
    match requests_request (calls w) rq with
    | inl e => (Raises e, w')
    | inr r => (Returns r, w')
    end.

Definition _request (self : ClubhouseClient) (method : string) (data : json)
    (segments : list Seg) (kwargs : Kwargs) : M Result :=
  rq <- lift (prepare self method data segments kwargs) ;;
  response <- send rq ;;
  classify self response.

(** The generic verbs pass [*segments] positionally into
    [_request(self, method, data=None, *segments, **kwargs)]: the first
    one, when there is one, is bound to [data]. *)
Definition verb (self : ClubhouseClient) (method : string)
    (segments : list Seg) (kwargs : Kwargs) : M Result :=
  match segments with
  | [] => _request self method JNull [] kwargs
  | s :: rest => _request self method (seg_value s) rest kwargs
  end.

Definition get self (segments : list Seg) kwargs := verb self "get" segments kwargs.
Definition post self (segments : list Seg) kwargs := verb self "post" segments kwargs.
Definition put self (segments : list Seg) kwargs := verb self "put" segments kwargs.
Definition delete self (segments : list Seg) kwargs := verb self "delete" segments kwargs.

(** [result.json()] *)
Definition result_json (result : Result) : M json :=
  match result with
  | EmptyDict => raise (AttributeError "dict" "json")
  | Raw r =>
      match decoded r with
      | Some v => ret v
      | None => raise JSONDecodeError
      end
  end.

(** [result.next] *)
Definition result_next (result : Result) : M (option string) :=
  match result with
  | EmptyDict => raise (AttributeError "dict" "next")
  | Raw r => ret (next r)
  end.

Definition truthy (c : option string) : bool :=
  match c with
  | Some s => negb (is_empty s)
  | None => false
  end.

Definition _create_item self (data : json) (segments : list Seg) kwargs : M json :=
  result <- _request self "post" data segments kwargs ;;
  result_json result.

Definition _delete_item self (segments : list Seg) kwargs : M Result :=
  result <- _request self "delete" JNull segments kwargs ;;
  ret result.

Definition _get_item self (segments : list Seg) kwargs : M json :=
  result <- _request self "get" JNull segments kwargs ;;
  result_json result.

Definition type_name (v : json) : string :=
  match v with
  | JNull => "NoneType"
  | JBool _ => "bool"
  | JInt _ => "int"
  | JStr _ => "str"
  | JList _ => "list"
  | JDict _ => "dict"
  end.

Fixpoint chars (s : string) : list json :=
  match s with
  | EmptyString => []
  | String a r => JStr (String a EmptyString) :: chars r
  end.

(** [items.extend(page)]: [extend] is looked up on [items] before [page]
    is computed, see [list_loop]; here the call itself, which iterates
    over [page]. *)
Definition extend (items : list json) (page : json) : M json :=
  match page with
  | JList l => ret (JList (items ++ l))
  | JDict kvs => ret (JList (items ++ map (fun kv => JStr (fst kv)) kvs))
  | JStr s => ret (JList (items ++ chars s))
  | _ => raise (TypeError "object is not iterable")
  end.

(** The [while result.next:] loop of [_list_items]; [fuel] bounds the
    number of iterations, the source has no bound. *)
Fixpoint list_loop (fuel : nat) self kwargs (result : Result) (items : json) : M json :=
  cursor <- result_next result ;;
  if truthy cursor then
    match fuel with
    | O => out_of_fuel
    | S fuel' =>
        let cursor := match cursor with Some c => c | None => EmptyString end in
        result <- _request self "get" JNull [SStr cursor] kwargs ;;
        match items with
        | JList l =>
            page <- result_json result ;;
            items <- extend l page ;;
            list_loop fuel' self kwargs result items
        | _ => raise (AttributeError (type_name items) "extend")
        end
    end
  else ret items.

Definition _list_items (fuel : nat) self (segments : list Seg) kwargs : M json :=
  result <- _request self "get" JNull segments kwargs ;;
  items <- result_json result ;;
  list_loop fuel self kwargs result items.

Definition _update_item self (data : json) (segments : list Seg) kwargs : M json :=
  result <- _request self "put" data segments kwargs ;;
  result_json result.

(** *** Milestones *)

Definition create_milestone self (data : json) kwargs : M json :=
  let segments := [SStr "milestones"] in
  _create_item self data segments kwargs.

Definition delete_milestone self (id : Seg) kwargs : M Result :=
  let segments := [SStr "milestones"; id] in
  _delete_item self segments kwargs.

Definition get_milestone self (id : Seg) kwargs : M json :=
  let segments := [SStr "milestones"; id] in
  _get_item self segments kwargs.

Definition list_milestone_epics (fuel : nat) self (id : Seg) kwargs : M json :=
  let segments := [SStr "milestones"; id; SStr "epics"] in
  _list_items fuel self segments kwargs.

Definition list_milestones (fuel : nat) self kwargs : M json :=
  let segments := [SStr "milestones"] in
  _list_items fuel self segments kwargs.

Definition update_milestone self (id : Seg) (data : json) kwargs : M json :=
  let segments := [SStr "milestones"; id] in
  _update_item self data segments kwargs.

End Transport.

End Clubhouse.

(** ** A scripted transport

    The server side used where a concrete run is evaluated: the n-th call
    is answered by the n-th response of the script, whatever is asked, and
    a call past the end of the script fails in the transport. *)

Module Mock.
Import Clubhouse.

Definition scripted (script : list Response)
    (history : list Request) (rq : Request) : Exn + Response :=
  match nth_error script (length history) with
  | Some r => inr r
  | None => inl (TransportError "no response scripted")
  end.

Definition no_content : Response :=
  mkResponse 204 EmptyString None None.

Definition not_modified : Response :=
  mkResponse 304 "unchanged" None None.

Definition not_found : Response :=
  mkResponse 404 "missing" None None.

End Mock.

Import PyStr PyLib Json Clubhouse.

(** ** Vocabulary of the statements *)

(** The world after one more call to the transport. *)
Definition sent (w : World) (rq : Request) : World :=
  mkWorld (calls w ++ [rq]) (log w).

(** The world after one more message at error severity. *)
Definition logged (w : World) (msg : string) : World :=
  mkWorld (calls w) (log w ++ [msg]).

(** What [_request] returns for a response it does not raise on. *)
Definition settled (r : Response) : Result :=
  if status_code r =? 204 then EmptyDict else Raw r.

(** A response that [_request] hands back as it is: not an error for this
    client, and not the no-content status. *)
Definition delivered (self : ClubhouseClient) (r : Response) : Prop :=
  (status_code r <= 299 \/ is_ignored self (status_code r) = true) /\
  status_code r <> 204.

(** A segment as it enters the join. *)
Definition stripped (s : Seg) : string := strip "/" (str s).

(** The caller's segments, stringified, stripped and joined on their
    own. *)
Definition relative (segments : list Seg) : string :=
  path_join EmptyString (map stripped segments).

(** Components none of which is absolute. *)
Definition relative_step (ps : list string) : Prop :=
  Forall (fun b => startswith b "/" = false) ps.

(** The items a page contributes, and a run of pages in which each page
    but the last offers a cursor. *)
Definition page_items (r : Response) : list json :=
  match decoded r with
  | Some (JList l) => l
  | _ => []
  end.

Definition is_page (self : ClubhouseClient) (r : Response) : Prop :=
  delivered self r /\ exists l, decoded r = Some (JList l).

Fixpoint chained (first : Response) (more : list Response) : Prop :=
  match more with
  | [] => truthy (next first) = false
  | r :: rs => truthy (next first) = true /\ chained r rs
  end.

(** The request [_request] makes for a method, a payload and a
    constructed URL. *)
Definition request_of (self : ClubhouseClient) (method : string) (data : json)
    (url : string) (kwargs : Kwargs) : Request :=
  mkRequest method (with_token self url)
    [("Content-Type", "application/json")] (dumps data) kwargs.

(** The characters of [str(n)] for an integer [n]: decimal digits and the
    minus sign. *)
Definition is_decimal (a : ascii) : bool :=
  let n := N_of_ascii a in
  (Ascii.eqb a "-" || ((48 <=? n) && (n <=? 57)))%N.

Fixpoint all_chars (p : ascii -> bool) (s : string) : bool :=
  match s with
  | EmptyString => true
  | String a r => p a && all_chars p r
  end.


Definition is_list (v : json) : bool :=
  match v with
  | JList _ => true
  | _ => false
  end.

(** Printable ASCII, from the space to the tilde. *)
Definition printable (a : ascii) : bool :=
  let n := N_of_ascii a in ((32 <=? n) && (n <=? 126))%N.

(** The text before the first [#], all of it when there is none. *)
Definition before_fragment (s : string) : string :=
  match split_once "#" s with
  | Some (x, _) => x
  | None => s
  end.

(** Case analysis on the integer comparisons of a goal. *)
Ltac zcases :=
  repeat match goal with
         | |- context [?a <=? ?b] => destruct (Z.leb_spec a b)
         | |- context [?a <? ?b] => destruct (Z.ltb_spec a b)
         | |- context [?a =? ?b] => destruct (Z.eqb_spec a b)
         end;
  cbn; try reflexivity; try lia.

(** ** Properties *)

(** *** The monad *)

Lemma bind_ret_r {A} (m : M A) (w : World) :
  bind m ret w = m w.
Proof.
  unfold bind, ret. destruct (m w) as [[a | e |] w']; reflexivity.
Qed.

Lemma bind_returns {A B} (m : M A) (k : A -> M B) w a w' :
  m w = (Returns a, w') -> bind m k w = k a w'.
Proof.
  intros H. unfold bind. rewrite H. reflexivity.
Qed.

Lemma bind_raises {A B} (m : M A) (k : A -> M B) w e w' :
  m w = (Raises e, w') -> bind m k w = (Raises e, w').
Proof.
  intros H. unfold bind. rewrite H. reflexivity.
Qed.

(** *** Dispatch and error classification *)

Lemma request_dispatched t self method data segs kwargs rq r w :
  prepare self method data segs kwargs = inr rq ->
  t (calls w) rq = inr r ->
  _request t self method data segs kwargs w = classify self r (sent w rq).
Proof.
  intros Hp Ht. unfold _request.
  rewrite Hp. unfold lift, bind, ret, send. rewrite Ht. reflexivity.
Qed.

Lemma request_not_prepared t self method data segs kwargs e w :
  prepare self method data segs kwargs = inl e ->
  _request t self method data segs kwargs w = (Raises e, w).
Proof.
  intros Hp. unfold _request. rewrite Hp. reflexivity.
Qed.

Lemma request_transport_failure t self method data segs kwargs rq e w :
  prepare self method data segs kwargs = inr rq ->
  t (calls w) rq = inl e ->
  _request t self method data segs kwargs w = (Raises e, sent w rq).
Proof.
  intros Hp Ht. unfold _request.
  rewrite Hp. unfold lift, bind, ret, send. rewrite Ht. reflexivity.
Qed.

Lemma classify_at_most_299 self r w :
  status_code r <= 299 ->
  classify self r w = (Returns (settled r), w).
Proof.
  intros H. unfold classify, settled, bind, ret. zcases.
Qed.

Lemma classify_ignored self r w :
  is_ignored self (status_code r) = true ->
  classify self r w = (Returns (settled r), w).
Proof.
  intros H. unfold classify, settled, bind, ret. rewrite H, andb_false_r. zcases.
Qed.

Lemma classify_http_error self r w :
  400 <= status_code r < 600 ->
  is_ignored self (status_code r) = false ->
  classify self r w = (Raises (HTTPError r), logged w (error_message r)).
Proof.
  intros H Hi.
  unfold classify, raise_for_status, bind, ret, raise, logger_error, logged.
  rewrite Hi. zcases.
Qed.

Lemma classify_logged_only self r w :
  299 < status_code r ->
  status_code r < 400 \/ 600 <= status_code r ->
  is_ignored self (status_code r) = false ->
  classify self r w = (Returns (Raw r), logged w (error_message r)).
Proof.
  intros H Hout Hi.
  unfold classify, raise_for_status, bind, ret, raise, logger_error, logged.
  rewrite Hi. zcases.
Qed.

Lemma classify_keeps_calls self r w :
  calls (snd (classify self r w)) = calls w.
Proof.
  unfold classify, raise_for_status, bind, ret, raise, logger_error.
  destruct (is_ignored self (status_code r)); zcases.
Qed.

(** What holds of the error classification of a dispatched request: a
    status of at most 299, or an ignored one, raises nothing and logs
    nothing; an unignored status of the client-error or server-error range
    is logged and raised with the response it came from. *)
Lemma request_error_classification t self method data segs kwargs rq r w :
  prepare self method data segs kwargs = inr rq ->
  t (calls w) rq = inr r ->
  (status_code r <= 299 \/ is_ignored self (status_code r) = true ->
   _request t self method data segs kwargs w = (Returns (settled r), sent w rq)) /\
  (400 <= status_code r < 600 -> is_ignored self (status_code r) = false ->
   _request t self method data segs kwargs w
   = (Raises (HTTPError r), logged (sent w rq) (error_message r))).
Proof.
  intros Hp Ht. rewrite (request_dispatched _ _ _ _ _ _ _ _ _ Hp Ht). split.
  - intros [H | H]; [apply classify_at_most_299 | apply classify_ignored]; assumption.
  - apply classify_http_error.
Qed.

(** C1, at a status the claim covers and the code lets through: with an
    empty ignore set a response of status 304 is logged at error severity,
    yet no HTTP failure is raised; [_request] returns the response. *)
Theorem unignored_304_is_logged_but_not_raised :
  forall key kwargs,
    _request (Mock.scripted [Mock.not_modified]) (init key None)
      "get" JNull [SStr "milestones"] kwargs empty_world
    = (Returns (Raw Mock.not_modified),
       mkWorld
         [mkRequest "get"
            ("https://api.clubhouse.io/api/v3/milestones?token=" ++ key)
            [("Content-Type", "application/json")] "null" kwargs]
         ["Status code: 304, Content: unchanged"]).
Proof.
  intros key kwargs. reflexivity.
Qed.

(** The same run with a status of the client-error range does raise. *)
Example unignored_404_is_raised :
  forall key kwargs,
    fst (_request (Mock.scripted [Mock.not_found]) (init key None)
           "get" JNull [SStr "milestones"] kwargs empty_world)
    = Raises (HTTPError Mock.not_found).
Proof.
  intros key kwargs. reflexivity.
Qed.

Lemma request_no_content t self method data segs kwargs rq r w :
  prepare self method data segs kwargs = inr rq ->
  t (calls w) rq = inr r ->
  status_code r = 204 ->
  _request t self method data segs kwargs w = (Returns EmptyDict, sent w rq).
Proof.
  intros Hp Ht Hs.
  rewrite (request_dispatched _ _ _ _ _ _ _ _ _ Hp Ht).
  rewrite classify_at_most_299 by lia.
  unfold settled. rewrite Hs. reflexivity.
Qed.

(** C6: a dispatched request answered with status 204 returns the empty
    mapping, whatever the body is and whether or not it decodes, and
    whatever the ignore set is. *)
Theorem no_content_returns_empty_dict t self method data segs kwargs rq r w :
  prepare self method data segs kwargs = inr rq ->
  t (calls w) rq = inr r ->
  status_code r = 204 ->
  _request t self method data segs kwargs w = (Returns EmptyDict, sent w rq).
Proof.
  exact (request_no_content t self method data segs kwargs rq r w).
Qed.

Lemma no_content_returns_empty_dict_witness :
  _request (Mock.scripted [mkResponse 204 "<html>not json</html>" None (Some "more")])
    (init "secret" (Some [204; 404])) "put" (JBool true)
    [SStr "milestones"; SInt 7] [] empty_world
  = (Returns EmptyDict,
     sent empty_world
       (mkRequest "put"
          "https://api.clubhouse.io/api/v3/milestones/7?token=secret"
          [("Content-Type", "application/json")] "true" [])).
Proof.
  apply (no_content_returns_empty_dict
           (Mock.scripted [mkResponse 204 "<html>not json</html>" None (Some "more")])
           (init "secret" (Some [204; 404])) "put" (JBool true)
           [SStr "milestones"; SInt 7] [] _
           (mkResponse 204 "<html>not json</html>" None (Some "more")) empty_world);
    reflexivity.
Defined.

(** C9: the request that is dispatched has the JSON serialisation of the
    payload as its body, which is [null] when no payload is given, and its
    headers are the JSON content type. *)
Theorem request_carries_json_body t self method data segs kwargs rq w :
  prepare self method data segs kwargs = inr rq ->
  calls (snd (_request t self method data segs kwargs w)) = (calls w ++ [rq])%list /\
  rq_data rq = dumps data /\
  (data = JNull -> rq_data rq = "null") /\
  rq_headers rq = [("Content-Type", "application/json")].
Proof.
  intros Hp. split.
  - destruct (t (calls w) rq) as [e | r] eqn:Ht.
    + rewrite (request_transport_failure _ _ _ _ _ _ _ _ _ Hp Ht). reflexivity.
    + rewrite (request_dispatched _ _ _ _ _ _ _ _ _ Hp Ht).
      rewrite classify_keeps_calls. reflexivity.
  - unfold prepare in Hp. destruct (build_url segs) as [e | url]; [discriminate |].
    injection Hp as <-. cbn. repeat split. intros ->. reflexivity.
Qed.

Lemma request_carries_json_body_witness :
  calls (snd (_request (Mock.scripted [Mock.no_content]) (init "secret" None)
                "delete" JNull [SStr "milestones"; SInt 123] [] empty_world))
  = [mkRequest "delete"
       "https://api.clubhouse.io/api/v3/milestones/123?token=secret"
       [("Content-Type", "application/json")] "null" []].
Proof.
  apply (request_carries_json_body (Mock.scripted [Mock.no_content])
           (init "secret" None) "delete" JNull [SStr "milestones"; SInt 123] []
           _ empty_world).
  reflexivity.
Defined.

(** *** The credential and the query string *)

Lemma contains_char_cons c a s :
  contains_char c (String a s) = Ascii.eqb a c || contains_char c s.
Proof.
  unfold contains_char. cbn.
  destruct (Ascii.eqb a c); [reflexivity |].
  destruct (split_once c s) as [[x y] |]; reflexivity.
Qed.

Lemma remove_chars_keeps_absent bad c s :
  contains_char c s = false -> contains_char c (remove_chars bad s) = false.
Proof.
  induction s as [| a s IH]; [reflexivity |].
  rewrite contains_char_cons. intros H.
  apply orb_false_iff in H as [Ha Hs]. cbn.
  destruct (bad a); [auto |].
  rewrite contains_char_cons, Ha. cbn. auto.
Qed.

Lemma split_once_keeps_absent d c s x y :
  contains_char c s = false -> split_once d s = Some (x, y) ->
  contains_char c x = false.
Proof.
  revert x y. induction s as [| a s IH]; intros x y; [discriminate |].
  rewrite contains_char_cons. intros H.
  apply orb_false_iff in H as [Ha Hs]. cbn.
  destruct (Ascii.eqb a d).
  - intros [= <- _]. reflexivity.
  - destruct (split_once d s) as [[x' y'] |]; [| discriminate].
    intros [= <- _]. rewrite contains_char_cons, Ha. cbn. eauto.
Qed.

(** A URL in which no question mark occurs has an empty query. *)
Lemma query_empty_without_question_mark url :
  contains_char "?" url = false -> urlparse_query url = EmptyString.
Proof.
  intros H. unfold urlparse_query.
  pose proof (remove_chars_keeps_absent unsafe_url_char _ _ H) as Hu.
  set (u := remove_chars unsafe_url_char url) in *.
  assert (Hx : contains_char "?"
                 match split_once "#" u with Some (x, _) => x | None => u end = false).
  { destruct (split_once "#" u) as [[x y] |] eqn:E; [| exact Hu].
    eapply split_once_keeps_absent; eauto. }
  unfold contains_char in Hx.
  destruct (split_once "?" _) as [[x y] |]; [discriminate | reflexivity].
Qed.

Lemma with_token_cases self url :
  (urlparse_query url = EmptyString ->
   with_token self url = url ++ "?token=" ++ api_key self) /\
  (urlparse_query url <> EmptyString ->
   with_token self url = url ++ "&token=" ++ api_key self).
Proof.
  unfold with_token, token_prefix. split; intros Hq.
  - rewrite Hq. reflexivity.
  - destruct (urlparse_query url); [contradiction | reflexivity].
Qed.

Lemma prepare_inv self method data segs kwargs rq :
  prepare self method data segs kwargs = inr rq ->
  exists url,
    build_url segs = inr url /\
    rq = mkRequest method (with_token self url)
           [("Content-Type", "application/json")] (dumps data) kwargs.
Proof.
  unfold prepare. destruct (build_url segs) as [e | url]; [discriminate |].
  intros [= <-]. exists url. split; reflexivity.
Qed.

Lemma prepare_url self method data segs kwargs url rq :
  build_url segs = inr url ->
  prepare self method data segs kwargs = inr rq ->
  rq_url rq = with_token self url.
Proof.
  intros Hu Hp. apply prepare_inv in Hp as (url' & Hu' & ->).
  rewrite Hu in Hu'. injection Hu' as <-. reflexivity.
Qed.

(** C5: the URL handed to the transport is the constructed URL followed by
    the API key as a query parameter, introduced by [?token=] when the
    constructed URL has no query component and by [&token=] when it has
    one. *)
Theorem token_joins_query self method data segs kwargs url rq :
  build_url segs = inr url ->
  prepare self method data segs kwargs = inr rq ->
  (urlparse_query url = EmptyString ->
   rq_url rq = url ++ "?token=" ++ api_key self) /\
  (urlparse_query url <> EmptyString ->
   rq_url rq = url ++ "&token=" ++ api_key self).
Proof.
  intros Hu Hp. rewrite (prepare_url _ _ _ _ _ _ _ Hu Hp).
  apply with_token_cases.
Qed.

Lemma token_joins_query_witness :
  (rq_url (mkRequest "get"
             "https://api.clubhouse.io/api/v3/milestones?token=secret"
             [("Content-Type", "application/json")] "null" [])
   = "https://api.clubhouse.io/api/v3/milestones" ++ "?token=" ++ "secret") /\
  (rq_url (mkRequest "get"
             "https://api.clubhouse.io/api/v3/search/stories?page_size=5&token=secret"
             [("Content-Type", "application/json")] "null" [])
   = "https://api.clubhouse.io/api/v3/search/stories?page_size=5" ++ "&token=" ++ "secret").
Proof.
  split.
  - apply (token_joins_query (init "secret" None) "get" JNull
             [SStr "milestones"] []
             "https://api.clubhouse.io/api/v3/milestones" _);
      reflexivity.
  - apply (token_joins_query (init "secret" None) "get" JNull
             [SStr "/api/v3/search/stories?page_size=5"] []
             "https://api.clubhouse.io/api/v3/search/stories?page_size=5" _).
    + reflexivity.
    + reflexivity.
    + discriminate.
Defined.

(** The separator for the usual resource paths: without a question mark
    in the constructed URL the key is introduced by [?token=]. *)
Corollary token_after_plain_path self method data segs kwargs url rq :
  build_url segs = inr url ->
  prepare self method data segs kwargs = inr rq ->
  contains_char "?" url = false ->
  rq_url rq = url ++ "?token=" ++ api_key self.
Proof.
  intros Hu Hp Hc.
  rewrite (prepare_url _ _ _ _ _ _ _ Hu Hp).
  apply with_token_cases, query_empty_without_question_mark, Hc.
Qed.

(** *** URL construction *)

(** With a string in first position, later segments of any kind are
    stringified, stripped of their slashes and joined under the host,
    after the prefix when the first segment does not start with it. *)
Lemma build_url_string_first s0 rest :
  build_url (SStr s0 :: rest)
  = inr (path_join ENDPOINT_HOST
           (if startswith s0 ENDPOINT_PATH
            then map stripped (SStr s0 :: rest)
            else "api/v3" :: map stripped (SStr s0 :: rest))).
Proof.
  unfold build_url, anchor, join_segments.
  destruct (startswith s0 ENDPOINT_PATH); reflexivity.
Qed.

Example get_milestone_url :
  build_url [SStr "milestones"; SInt 123]
  = inr "https://api.clubhouse.io/api/v3/milestones/123".
Proof. reflexivity. Qed.

Example slashes_are_stripped :
  build_url [SStr "/milestones/"; SInt 123; SStr "//epics"]
  = inr "https://api.clubhouse.io/api/v3/milestones/123/epics".
Proof. reflexivity. Qed.

(** C8, at a numeric identifier in first position: URL construction does
    not stringify it, the prefix test looks [startswith] up on the integer
    and raises, and nothing is sent. *)
Theorem numeric_first_segment_raises :
  forall t self method data n rest kwargs w,
    build_url (SInt n :: rest) = inl (AttributeError "int" "startswith") /\
    _request t self method data (SInt n :: rest) kwargs w
    = (Raises (AttributeError "int" "startswith"), w).
Proof.
  intros. split; reflexivity.
Qed.

(** *** The generic verbs *)

(** C2, as the code has it: each generic verb binds the first of its path
    segments to the payload parameter of the core dispatch operation and
    forwards only the remaining ones as path segments; a single segment
    leaves no path at all, and a numeric identifier in second position
    becomes the first path segment. *)
Theorem verbs_bind_first_segment_to_payload :
  forall t self kwargs w,
    (forall s rest,
        get t self (s :: rest) kwargs w
        = _request t self "get" (seg_value s) rest kwargs w /\
        post t self (s :: rest) kwargs w
        = _request t self "post" (seg_value s) rest kwargs w /\
        put t self (s :: rest) kwargs w
        = _request t self "put" (seg_value s) rest kwargs w /\
        delete t self (s :: rest) kwargs w
        = _request t self "delete" (seg_value s) rest kwargs w) /\
    get t self [SStr "milestones"] kwargs w = (Raises IndexError, w) /\
    get t self [SStr "milestones"; SInt 123] kwargs w
    = (Raises (AttributeError "int" "startswith"), w) /\
    calls (snd (get (Mock.scripted [mkResponse 200 "[]" (Some (JList [])) None])
                  self [SStr "milestones"; SStr "123"] kwargs empty_world))
    = [mkRequest "get"
         ("https://api.clubhouse.io/api/v3/123?token=" ++ api_key self)
         [("Content-Type", "application/json")]
         (String quote ("milestones" ++ String quote EmptyString)) kwargs].
Proof.
  intros. repeat split.
Qed.

(** *** The resource helpers *)

Lemma request_delivered t self method data segs kwargs rq r w :
  prepare self method data segs kwargs = inr rq ->
  t (calls w) rq = inr r ->
  delivered self r ->
  _request t self method data segs kwargs w = (Returns (Raw r), sent w rq).
Proof.
  intros Hp Ht [Hok H204].
  destruct (request_error_classification _ _ _ _ _ _ _ _ _ Hp Ht) as [-> _];
    [| exact Hok].
  unfold settled. destruct (Z.eqb_spec (status_code r) 204); [contradiction | reflexivity].
Qed.

(** C7: the delete helper is the dispatch of a DELETE with no payload and
    returns what the dispatch returns; deleting milestone 123 against a
    server that answers 204 sends one DELETE for that milestone, with the
    body [null], and returns the empty mapping. *)
Theorem delete_item_returns_dispatch_result t self segs kwargs w :
  _delete_item t self segs kwargs w
  = _request t self "delete" JNull segs kwargs w /\
  (forall rq, prepare self "delete" JNull segs kwargs = inr rq ->
              rq_method rq = "delete" /\ rq_data rq = "null") /\
  (forall r,
      t (calls w)
        (mkRequest "delete"
           ("https://api.clubhouse.io/api/v3/milestones/123?token=" ++ api_key self)
           [("Content-Type", "application/json")] "null" kwargs) = inr r ->
      status_code r = 204 ->
      delete_milestone t self (SInt 123) kwargs w
      = (Returns EmptyDict,
         sent w
           (mkRequest "delete"
              ("https://api.clubhouse.io/api/v3/milestones/123?token=" ++ api_key self)
              [("Content-Type", "application/json")] "null" kwargs))).
Proof.
  split; [| split].
  - unfold _delete_item. apply bind_ret_r.
  - intros rq Hp. apply prepare_inv in Hp as (url & _ & ->). split; reflexivity.
  - intros r Ht Hs. unfold delete_milestone, _delete_item.
    rewrite bind_ret_r.
    apply (request_no_content t self "delete" JNull
             [SStr "milestones"; SInt 123] kwargs _ r w); auto.
Qed.

Lemma prepare_total self method data segs kwargs url :
  build_url segs = inr url ->
  prepare self method data segs kwargs
  = inr (mkRequest method (with_token self url)
           [("Content-Type", "application/json")] (dumps data) kwargs).
Proof.
  intros Hu. unfold prepare. rewrite Hu. reflexivity.
Qed.

(** C10: when the server answers 204, the create, get, update and list
    helpers fail, because the empty mapping that the dispatch returns has
    no [json] attribute; the delete helper returns that empty mapping. *)
Theorem no_content_fails_decoding_helpers t self data segs kwargs url fuel w :
  build_url segs = inr url ->
  (forall rq, exists r, t (calls w) rq = inr r /\ status_code r = 204) ->
  fst (_create_item t self data segs kwargs w)
  = Raises (AttributeError "dict" "json") /\
  fst (_get_item t self segs kwargs w)
  = Raises (AttributeError "dict" "json") /\
  fst (_update_item t self data segs kwargs w)
  = Raises (AttributeError "dict" "json") /\
  fst (_list_items t fuel self segs kwargs w)
  = Raises (AttributeError "dict" "json") /\
  fst (_delete_item t self segs kwargs w) = Returns EmptyDict.
Proof.
  intros Hu Ht.
  assert (Hfail : forall method payload,
             (result <- _request t self method payload segs kwargs ;;
              result_json result) w
             = (Raises (AttributeError "dict" "json"),
                sent w (mkRequest method (with_token self url)
                          [("Content-Type", "application/json")]
                          (dumps payload) kwargs))).
  { intros method payload.
    destruct (Ht (mkRequest method (with_token self url)
                    [("Content-Type", "application/json")]
                    (dumps payload) kwargs)) as (r & Hr & Hs).
    unfold bind.
    rewrite (request_no_content _ _ _ _ _ _ _ _ _
               (prepare_total self method payload segs kwargs url Hu) Hr Hs).
    reflexivity. }
  repeat split.
  - unfold _create_item. rewrite Hfail. reflexivity.
  - unfold _get_item. rewrite Hfail. reflexivity.
  - unfold _update_item. rewrite Hfail. reflexivity.
  - unfold _list_items.
    destruct (Ht (mkRequest "get" (with_token self url)
                    [("Content-Type", "application/json")]
                    (dumps JNull) kwargs)) as (r & Hr & Hs).
    unfold bind.
    rewrite (request_no_content _ _ _ _ _ _ _ _ _
               (prepare_total self "get" JNull segs kwargs url Hu) Hr Hs).
    reflexivity.
  - unfold _delete_item. rewrite bind_ret_r.
    destruct (Ht (mkRequest "delete" (with_token self url)
                    [("Content-Type", "application/json")]
                    (dumps JNull) kwargs)) as (r & Hr & Hs).
    rewrite (request_no_content _ _ _ _ _ _ _ _ _
               (prepare_total self "delete" JNull segs kwargs url Hu) Hr Hs).
    reflexivity.
Qed.

Lemma no_content_fails_decoding_helpers_witness :
  fst (_create_item (fun _ _ => inr Mock.no_content) (init "secret" None)
         (JDict [("name", JStr "TEST")]) [SStr "milestones"] [] empty_world)
  = Raises (AttributeError "dict" "json") /\
  fst (_get_item (fun _ _ => inr Mock.no_content) (init "secret" None)
         [SStr "milestones"] [] empty_world)
  = Raises (AttributeError "dict" "json") /\
  fst (_update_item (fun _ _ => inr Mock.no_content) (init "secret" None)
         (JDict [("name", JStr "TEST")]) [SStr "milestones"] [] empty_world)
  = Raises (AttributeError "dict" "json") /\
  fst (_list_items (fun _ _ => inr Mock.no_content) 0 (init "secret" None)
         [SStr "milestones"] [] empty_world)
  = Raises (AttributeError "dict" "json") /\
  fst (_delete_item (fun _ _ => inr Mock.no_content) (init "secret" None)
         [SStr "milestones"] [] empty_world) = Returns EmptyDict.
Proof.
  apply (no_content_fails_decoding_helpers (fun _ _ => inr Mock.no_content)
           (init "secret" None) (JDict [("name", JStr "TEST")])
           [SStr "milestones"] []
           "https://api.clubhouse.io/api/v3/milestones" 0 empty_world).
  - reflexivity.
  - intros rq. exists Mock.no_content. split; reflexivity.
Defined.

(** *** Pagination *)

Lemma list_loop_stops t fuel self kwargs r items w :
  truthy (next r) = false ->
  list_loop t fuel self kwargs (Raw r) items w = (Returns items, w).
Proof.
  intros Hn. destruct fuel; cbn; unfold bind; cbn; rewrite Hn; reflexivity.
Qed.

Lemma list_loop_step t fuel self kwargs r c l q r' w :
  next r = Some c -> is_empty c = false ->
  prepare self "get" JNull [SStr c] kwargs = inr q ->
  t (calls w) q = inr r' ->
  delivered self r' ->
  list_loop t (S fuel) self kwargs (Raw r) (JList l) w
  = (page <- result_json (Raw r') ;;
     items <- extend l page ;;
     list_loop t fuel self kwargs (Raw r') items) (sent w q).
Proof.
  intros Hn Hc Hp Ht Hd. cbn [list_loop]. unfold bind at 1. cbn [result_next ret].
  rewrite Hn. cbn [truthy]. rewrite Hc. cbn [negb].
  unfold bind at 1.
  rewrite (request_delivered _ _ _ _ _ _ _ _ _ Hp Ht Hd). reflexivity.
Qed.

(** C3: a first page of N items with a next-cursor followed by a second
    page of M items without one: the list helper returns the N items of
    the first page followed by the M items of the second, N+M in all, and
    the transport has been called exactly twice. *)
Theorem list_items_two_pages t self segs kwargs q1 q2 r1 r2 l1 l2 c fuel w :
  prepare self "get" JNull segs kwargs = inr q1 ->
  prepare self "get" JNull [SStr c] kwargs = inr q2 ->
  t (calls w) q1 = inr r1 ->
  t (calls w ++ [q1])%list q2 = inr r2 ->
  delivered self r1 -> delivered self r2 ->
  decoded r1 = Some (JList l1) -> next r1 = Some c -> is_empty c = false ->
  decoded r2 = Some (JList l2) -> truthy (next r2) = false ->
  (0 < fuel)%nat ->
  _list_items t fuel self segs kwargs w
  = (Returns (JList (l1 ++ l2)), mkWorld (calls w ++ [q1; q2]) (log w)) /\
  length (l1 ++ l2) = (length l1 + length l2)%nat.
Proof.
  intros Hp1 Hp2 Ht1 Ht2 Hd1 Hd2 Hj1 Hn1 Hc Hj2 Hn2 Hfuel.
  split; [| apply length_app].
  destruct fuel as [| fuel]; [lia |].
  unfold _list_items. unfold bind at 1.
  rewrite (request_delivered _ _ _ _ _ _ _ _ _ Hp1 Ht1 Hd1).
  unfold bind at 1. cbn [result_json]. rewrite Hj1. cbn [ret].
  rewrite (list_loop_step t fuel self kwargs r1 c l1 q2 r2 (sent w q1) Hn1 Hc Hp2 Ht2 Hd2).
  unfold bind at 1. cbn [result_json]. rewrite Hj2. cbn [ret].
  unfold bind at 1. cbn [extend ret].
  rewrite list_loop_stops by exact Hn2.
  unfold sent. cbn [calls log]. rewrite <- app_assoc. reflexivity.
Qed.

Lemma list_items_two_pages_witness :
  _list_items
    (Mock.scripted
       [mkResponse 200 "[1, 2]" (Some (JList [JInt 1; JInt 2]))
          (Some "/api/v3/milestones?next=abc");
        mkResponse 200 "[3]" (Some (JList [JInt 3])) None])
    1 (init "secret" None) [SStr "milestones"] [] empty_world
  = (Returns (JList [JInt 1; JInt 2; JInt 3]),
     mkWorld
       [mkRequest "get" "https://api.clubhouse.io/api/v3/milestones?token=secret"
          [("Content-Type", "application/json")] "null" [];
        mkRequest "get"
          "https://api.clubhouse.io/api/v3/milestones?next=abc&token=secret"
          [("Content-Type", "application/json")] "null" []]
       []) /\
  length [JInt 1; JInt 2; JInt 3] = 3%nat.
Proof.
  apply (list_items_two_pages
           (Mock.scripted
              [mkResponse 200 "[1, 2]" (Some (JList [JInt 1; JInt 2]))
                 (Some "/api/v3/milestones?next=abc");
               mkResponse 200 "[3]" (Some (JList [JInt 3])) None])
           (init "secret" None) [SStr "milestones"] []
           _ _
           (mkResponse 200 "[1, 2]" (Some (JList [JInt 1; JInt 2]))
              (Some "/api/v3/milestones?next=abc"))
           (mkResponse 200 "[3]" (Some (JList [JInt 3])) None)
           [JInt 1; JInt 2] [JInt 3] "/api/v3/milestones?next=abc" 1 empty_world);
    try reflexivity.
  - split; [left; cbn; lia | cbn; lia].
  - split; [left; cbn; lia | cbn; lia].
  - lia.
Defined.

(** *** The path prefix *)

Lemma append_assoc (x y z : string) : (x ++ y) ++ z = x ++ (y ++ z).
Proof.
  induction x as [| a x IH]; cbn; [reflexivity | rewrite IH; reflexivity].
Qed.

Lemma append_empty_r (x : string) : x ++ EmptyString = x.
Proof.
  induction x as [| a x IH]; cbn; [reflexivity | rewrite IH; reflexivity].
Qed.

Lemma endswith_char_app x y c :
  endswith_char (x ++ y) c
  = if is_empty y then endswith_char x c else endswith_char y c.
Proof.
  induction x as [| a x IH]; cbn.
  - destruct y; reflexivity.
  - destruct (x ++ y) eqn:E.
    + destruct x; [| discriminate]. cbn in E. subst y. reflexivity.
    + rewrite IH. destruct y; [| reflexivity].
      destruct x; [discriminate | reflexivity].
Qed.

Lemma is_empty_app x y : is_empty (x ++ y) = is_empty x && is_empty y.
Proof. destruct x; reflexivity. Qed.

Lemma rstrip_keeps_head c a r :
  Ascii.eqb a c = false -> rstrip c (String a r) = String a (rstrip c r).
Proof. intros H. cbn. rewrite H. reflexivity. Qed.

(** A stripped segment never starts with the separator, so no component
    of the join resets the path. *)
Lemma strip_not_absolute s : startswith (strip "/" s) "/" = false.
Proof.
  unfold strip. induction s as [| a s IH]; [reflexivity |].
  cbn [lstrip]. destruct (Ascii.eqb a "/") eqn:E; [exact IH |].
  rewrite rstrip_keeps_head by exact E. cbn. rewrite E. reflexivity.
Qed.

Lemma stripped_relative segments : relative_step (map stripped segments).
Proof.
  unfold relative_step. apply Forall_forall. intros b Hb.
  apply in_map_iff in Hb as (s & <- & _). apply strip_not_absolute.
Qed.

Lemma join_step_below x rel b :
  startswith b "/" = false ->
  join_step (x ++ String "/" rel) b = x ++ String "/" (join_step rel b).
Proof.
  intros Hb. unfold join_step. rewrite Hb.
  rewrite is_empty_app, andb_false_r, endswith_char_app. cbn [orb is_empty].
  assert (E : endswith_char (String "/" rel) "/"
              = is_empty rel || endswith_char rel "/").
  { destruct rel; reflexivity. }
  rewrite E.
  destruct (is_empty rel || endswith_char rel "/");
    rewrite append_assoc; reflexivity.
Qed.

(** Joining relative components below a non-empty directory is joining
    them on their own and putting the result below the directory. *)
Lemma join_below x ps rel :
  relative_step ps ->
  fold_left join_step ps (x ++ String "/" rel)
  = x ++ String "/" (fold_left join_step ps rel).
Proof.
  intros Hps. revert rel. induction Hps as [| b ps Hb _ IH]; intros rel; [reflexivity |].
  cbn [fold_left]. rewrite join_step_below by exact Hb. apply IH.
Qed.

(** The join of a non-empty list of relative components under a
    directory that does not end with the separator. *)
Lemma path_join_below x b ps :
  is_empty x = false -> endswith_char x "/" = false ->
  relative_step (b :: ps) ->
  path_join x (b :: ps) = x ++ String "/" (path_join EmptyString (b :: ps)).
Proof.
  intros Hx He Hps. inversion Hps as [| ? ? Hb Hrest]; subst.
  unfold path_join. cbn [fold_left]. unfold join_step at 2 4.
  rewrite Hb, Hx, He. cbn [orb is_empty append].
  apply join_below. exact Hrest.
Qed.

Lemma occurrences_under_prefix r :
  occurrences ENDPOINT_PATH (ENDPOINT_HOST ++ ENDPOINT_PATH ++ r)
  = S (occurrences ENDPOINT_PATH r).
Proof. reflexivity. Qed.

Lemma build_url_prefixed s0 rest :
  startswith s0 ENDPOINT_PATH = false ->
  build_url (SStr s0 :: rest)
  = inr (ENDPOINT_HOST ++ ENDPOINT_PATH ++ String "/" (relative (SStr s0 :: rest))).
Proof.
  intros H. rewrite build_url_string_first, H. f_equal.
  rewrite path_join_below;
    [ | reflexivity | reflexivity
      | constructor; [reflexivity | apply (stripped_relative (SStr s0 :: rest))] ].
  change (path_join EmptyString ("api/v3" :: map stripped (SStr s0 :: rest)))
    with (path_join "api/v3" (map stripped (SStr s0 :: rest))).
  cbn [map]. rewrite path_join_below;
    [ | reflexivity | reflexivity | apply (stripped_relative (SStr s0 :: rest)) ].
  reflexivity.
Qed.

Lemma build_url_unprefixed s0 rest :
  startswith s0 ENDPOINT_PATH = true ->
  build_url (SStr s0 :: rest)
  = inr (ENDPOINT_HOST ++ String "/" (relative (SStr s0 :: rest))).
Proof.
  intros H. rewrite build_url_string_first, H. f_equal.
  cbn [map]. rewrite path_join_below;
    [ | reflexivity | reflexivity | apply (stripped_relative (SStr s0 :: rest)) ].
  reflexivity.
Qed.

(** C4, as stated, fails: the first segment [api/v3] does not start with
    the prefix [/api/v3], the prefix is put in front of it, and the URL
    holds two copies. *)
Lemma prefix_occurs_twice :
  startswith "api/v3" ENDPOINT_PATH = false /\
  build_url [SStr "api/v3"; SStr "milestones"]
  = inr "https://api.clubhouse.io/api/v3/api/v3/milestones" /\
  occurrences ENDPOINT_PATH "https://api.clubhouse.io/api/v3/api/v3/milestones"
  = 2%nat.
Proof. repeat split. Qed.

(** C4, amended: when the first segment is a string that does not start
    with the prefix, the URL is the host, one copy of the prefix, and the
    caller's segments joined, so that it holds one copy of the prefix more
    than the part made of the caller's segments; when the first segment
    starts with the prefix, the URL is the host and the caller's segments
    joined, with no prefix put in front. *)
Theorem prefix_added_exactly_once s0 rest :
  (startswith s0 ENDPOINT_PATH = false ->
   build_url (SStr s0 :: rest)
   = inr (ENDPOINT_HOST ++ ENDPOINT_PATH
          ++ String "/" (relative (SStr s0 :: rest))) /\
   occurrences ENDPOINT_PATH
     (ENDPOINT_HOST ++ ENDPOINT_PATH ++ String "/" (relative (SStr s0 :: rest)))
   = S (occurrences ENDPOINT_PATH (String "/" (relative (SStr s0 :: rest))))) /\
  (startswith s0 ENDPOINT_PATH = true ->
   build_url (SStr s0 :: rest)
   = inr (ENDPOINT_HOST ++ String "/" (relative (SStr s0 :: rest)))).
Proof.
  split.
  - intros H. split; [apply build_url_prefixed, H | apply occurrences_under_prefix].
  - apply build_url_unprefixed.
Qed.

Lemma prefix_added_exactly_once_witness :
  (build_url [SStr "milestones"; SInt 123; SStr "epics"]
   = inr "https://api.clubhouse.io/api/v3/milestones/123/epics" /\
   occurrences ENDPOINT_PATH "https://api.clubhouse.io/api/v3/milestones/123/epics"
   = 1%nat) /\
  build_url [SStr "/api/v3/search/stories?page_size=5"]
  = inr "https://api.clubhouse.io/api/v3/search/stories?page_size=5".
Proof.
  split.
  - apply (prefix_added_exactly_once "milestones" [SInt 123; SStr "epics"]).
    reflexivity.
  - apply (prefix_added_exactly_once "/api/v3/search/stories?page_size=5" []).
    reflexivity.
Defined.

(** *** Anchoring under the prefix *)

Lemma startswith_split s p :
  startswith s p = true -> exists x, s = p ++ x.
Proof.
  revert s. induction p as [| b p IH]; intros s H.
  - exists s. reflexivity.
  - destruct s as [| a s]; [discriminate |]. cbn in H.
    apply andb_true_iff in H as [Hab Hs].
    apply Ascii.eqb_eq in Hab as ->.
    destruct (IH s Hs) as [x ->]. exists x. reflexivity.
Qed.

Lemma strip_prefixed x :
  strip "/" (ENDPOINT_PATH ++ x) = "api/v3" ++ rstrip "/" x.
Proof. reflexivity. Qed.

Lemma join_keeps_start ps p :
  relative_step ps -> exists z, fold_left join_step ps p = p ++ z.
Proof.
  intros Hps. revert p. induction Hps as [| b ps Hb _ IH]; intros p.
  - exists EmptyString. symmetry. apply append_empty_r.
  - cbn [fold_left]. unfold join_step at 2. rewrite Hb.
    destruct (is_empty p || endswith_char p "/").
    + destruct (IH (p ++ b)) as [z ->]. exists (b ++ z). apply append_assoc.
    + destruct (IH (p ++ "/" ++ b)) as [z ->]. exists (("/" ++ b) ++ z).
      apply append_assoc.
Qed.

(** Every URL the client constructs lies under the host and the fixed
    API path prefix. *)
Lemma build_url_anchored segments url :
  build_url segments = inr url ->
  startswith url (ENDPOINT_HOST ++ ENDPOINT_PATH) = true.
Proof.
  destruct segments as [| [s0 | n] rest]; [discriminate | | discriminate].
  destruct (startswith s0 ENDPOINT_PATH) eqn:E.
  - rewrite (build_url_unprefixed _ _ E). intros [= <-].
    destruct (startswith_split _ _ E) as [x ->].
    unfold relative, path_join. cbn [map fold_left].
    change (stripped (SStr (ENDPOINT_PATH ++ x))) with (strip "/" (ENDPOINT_PATH ++ x)).
    rewrite strip_prefixed.
    destruct (join_keeps_start (map stripped rest)
                (join_step EmptyString ("api/v3" ++ rstrip "/" x))
                (stripped_relative rest)) as [z ->].
    reflexivity.
  - rewrite (build_url_prefixed _ _ E). intros [= <-]. reflexivity.
Qed.

(** *** Scenarios *)

Example create_milestone_request :
  calls (snd (create_milestone
                (Mock.scripted
                   [mkResponse 201 "{}" (Some (JDict [("id", JInt 1)])) None])
                (init "secret" None) (JDict [("name", JStr "TEST")]) []
                empty_world))
  = [mkRequest "post" "https://api.clubhouse.io/api/v3/milestones?token=secret"
       [("Content-Type", "application/json")]
       (dumps (JDict [("name", JStr "TEST")])) []].
Proof. reflexivity. Qed.

Example get_milestone_returns_decoded_body :
  get_milestone
    (Mock.scripted [mkResponse 200 "{}" (Some (JDict [("id", JInt 123)])) None])
    (init "secret" None) (SInt 123) [] empty_world
  = (Returns (JDict [("id", JInt 123)]),
     mkWorld
       [mkRequest "get" "https://api.clubhouse.io/api/v3/milestones/123?token=secret"
          [("Content-Type", "application/json")] "null" []]
       []).
Proof. reflexivity. Qed.

(** A later page answered with 204 fails the list helper as well. *)
Example list_fails_on_no_content_page :
  fst (list_milestones
         (Mock.scripted
            [mkResponse 200 "[1]" (Some (JList [JInt 1])) (Some "milestones?page=2");
             Mock.no_content])
         5 (init "secret" None) [] empty_world)
  = Raises (AttributeError "dict" "json").
Proof. reflexivity. Qed.

(** A server that always offers a next page keeps the loop going for as
    long as there is fuel. *)
Example list_never_ends :
  fst (list_milestones
         (fun _ _ => inr (mkResponse 200 "[1]" (Some (JList [JInt 1]))
                            (Some "milestones")))
         7 (init "secret" None) [] empty_world)
  = OutOfFuel.
Proof. reflexivity. Qed.

(** *** Any number of pages *)

Lemma truthy_cursor c :
  truthy c = true -> exists s, c = Some s /\ is_empty s = false.
Proof.
  destruct c as [s |]; [| discriminate]. cbn. intros H.
  exists s. split; [reflexivity |]. destruct (is_empty s); [discriminate | reflexivity].
Qed.

Lemma scripted_next done r rs w rq :
  length (calls w) = length done ->
  Mock.scripted (done ++ r :: rs) (calls w) rq = inr r.
Proof.
  intros H. unfold Mock.scripted. rewrite H.
  rewrite nth_error_app2 by lia. rewrite Nat.sub_diag. reflexivity.
Qed.

Lemma cursor_request self c kwargs :
  exists q, prepare self "get" JNull [SStr c] kwargs = inr q.
Proof.
  unfold prepare. rewrite build_url_string_first. eexists. reflexivity.
Qed.

(** The loop consumes the remaining pages of the script in order, one
    call per page, when the fuel covers them. *)
Lemma list_loop_pages self kwargs more :
  forall first done acc w fuel,
    Forall (is_page self) more ->
    chained first more ->
    length (calls w) = length done ->
    (length more <= fuel)%nat ->
    exists w',
      list_loop (Mock.scripted (done ++ more)) fuel self kwargs
        (Raw first) (JList acc) w
      = (Returns (JList (acc ++ flat_map page_items more)), w') /\
      length (calls w') = (length (calls w) + length more)%nat /\
      log w' = log w.
Proof.
  induction more as [| r rs IH]; intros first done acc w fuel Hpages Hchain Hlen Hfuel.
  - exists w. cbn [chained] in Hchain. rewrite list_loop_stops by exact Hchain.
    cbn [flat_map length]. rewrite app_nil_r, Nat.add_0_r. repeat split.
  - destruct Hchain as [Hnext Hchain].
    apply truthy_cursor in Hnext as (c & Hc & Hne).
    inversion Hpages as [| ? ? [Hd (l & Hl)] Hrest]; subst.
    destruct fuel as [| fuel]; [cbn in Hfuel; lia |].
    destruct (cursor_request self c kwargs) as [q Hq].
    rewrite (list_loop_step _ fuel self kwargs first c acc q r w Hc Hne Hq
               (scripted_next done r rs w q Hlen) Hd).
    unfold bind at 1. cbn [result_json]. rewrite Hl. cbn [ret].
    unfold bind at 1. cbn [extend ret].
    replace (done ++ r :: rs)%list with ((done ++ [r]) ++ rs)%list
      by (rewrite <- app_assoc; reflexivity).
    destruct (IH r (done ++ [r])%list (acc ++ l)%list (sent w q) fuel Hrest Hchain)
      as (w' & Hrun & Hcalls & Hlog).
    + unfold sent. cbn [calls]. rewrite !length_app, Hlen. reflexivity.
    + cbn [length] in Hfuel. lia.
    + exists w'. rewrite Hrun. cbn [flat_map]. unfold page_items at 2. rewrite Hl.
      rewrite <- app_assoc. repeat split.
      * rewrite Hcalls. unfold sent. cbn [calls length].
        rewrite length_app. cbn [length]. lia.
      * rewrite Hlog. reflexivity.
Qed.

(** The list helper against a script of pages: the items of all pages in
    page order, one call per page, nothing logged. *)
Lemma list_items_all_pages self segs kwargs url first more fuel :
  build_url segs = inr url ->
  Forall (is_page self) (first :: more) ->
  chained first more ->
  (length more <= fuel)%nat ->
  exists w',
    _list_items (Mock.scripted (first :: more)) fuel self segs kwargs empty_world
    = (Returns (JList (flat_map page_items (first :: more))), w') /\
    length (calls w') = S (length more) /\
    log w' = [].
Proof.
  intros Hu Hpages Hchain Hfuel.
  inversion Hpages as [| ? ? [Hd (l & Hl)] Hrest]; subst.
  pose proof (scripted_next [] first more empty_world
                (mkRequest "get" (with_token self url)
                   [("Content-Type", "application/json")] (dumps JNull) kwargs)
                eq_refl) as Ht.
  cbn [app] in Ht.
  unfold _list_items. unfold bind at 1.
  rewrite (request_delivered _ _ _ _ _ _ _ first empty_world
             (prepare_total self "get" JNull segs kwargs url Hu) Ht Hd).
  unfold bind at 1. cbn [result_json]. rewrite Hl. cbn [ret].
  destruct (list_loop_pages self kwargs more first [first] l
              (sent empty_world
                 (mkRequest "get" (with_token self url)
                    [("Content-Type", "application/json")] (dumps JNull) kwargs))
              fuel Hrest Hchain eq_refl Hfuel)
    as (w' & Hrun & Hcalls & Hlog).
  exists w'. cbn [app] in Hrun. rewrite Hrun.
  cbn [flat_map]. unfold page_items at 2. rewrite Hl. repeat split.
  - rewrite Hcalls. reflexivity.
  - rewrite Hlog. reflexivity.
Qed.

(** ** Further properties of the client *)

(** *** Calls and log of one dispatch *)

Lemma prepare_request_of self method data segs kwargs url :
  build_url segs = inr url ->
  prepare self method data segs kwargs
  = inr (request_of self method data url kwargs).
Proof. apply prepare_total. Qed.

Lemma prepare_fails self method data segs kwargs e :
  build_url segs = inl e -> prepare self method data segs kwargs = inl e.
Proof. intros H. unfold prepare. rewrite H. reflexivity. Qed.

Lemma build_url_cases segs :
  match segs with
  | SStr _ :: _ => exists url, build_url segs = inr url
  | SInt _ :: _ => build_url segs = inl (AttributeError "int" "startswith")
  | [] => build_url segs = inl IndexError
  end.
Proof.
  destruct segs as [| [s0 | n] rest]; try reflexivity.
  rewrite build_url_string_first. eexists. reflexivity.
Qed.

(** One dispatch makes exactly one call to the transport when a URL could
    be constructed, whatever the transport answers and whether or not the
    answer is raised on; it makes none when the segments are empty or
    start with an integer, and it never touches the calls made before. *)
Theorem request_makes_one_call t self method data segs kwargs w :
  calls (snd (_request t self method data segs kwargs w))
  = match prepare self method data segs kwargs with
    | inr rq => (calls w ++ [rq])%list
    | inl _ => calls w
    end /\
  match segs with
  | SStr _ :: _ => exists rq, prepare self method data segs kwargs = inr rq
  | _ => exists e, prepare self method data segs kwargs = inl e
  end.
Proof.
  split.
  - destruct (prepare self method data segs kwargs) as [e | rq] eqn:Hp.
    + rewrite (request_not_prepared _ _ _ _ _ _ _ _ Hp). reflexivity.
    + destruct (t (calls w) rq) as [e | r] eqn:Ht.
      * rewrite (request_transport_failure _ _ _ _ _ _ _ _ _ Hp Ht). reflexivity.
      * rewrite (request_dispatched _ _ _ _ _ _ _ _ _ Hp Ht).
        rewrite classify_keeps_calls. reflexivity.
  - pose proof (build_url_cases segs) as Hc.
    destruct segs as [| [s0 | n] rest].
    + eexists. apply prepare_fails, Hc.
    + destruct Hc as [url Hu]. eexists. apply prepare_request_of, Hu.
    + eexists. apply prepare_fails, Hc.
Qed.

Lemma classify_log self r w :
  log (snd (classify self r w))
  = if (299 <? status_code r) && negb (is_ignored self (status_code r))
    then (log w ++ [error_message r])%list
    else log w.
Proof.
  unfold classify, raise_for_status, bind, ret, raise, logger_error.
  destruct (is_ignored self (status_code r)); zcases.
Qed.

(** The log grows by one message, the status and the body of the
    response, exactly when the status is above 299 and not ignored; in
    every other case a dispatch logs nothing. *)
Theorem request_logs_exactly_unignored_errors
    t self method data segs kwargs rq r w :
  prepare self method data segs kwargs = inr rq ->
  t (calls w) rq = inr r ->
  log (snd (_request t self method data segs kwargs w))
  = if (299 <? status_code r) && negb (is_ignored self (status_code r))
    then (log w ++ [error_message r])%list
    else log w.
Proof.
  intros Hp Ht. rewrite (request_dispatched _ _ _ _ _ _ _ _ _ Hp Ht).
  rewrite classify_log. reflexivity.
Qed.

Lemma request_logs_exactly_unignored_errors_witness :
  log (snd (_request (Mock.scripted [Mock.not_found]) (init "secret" (Some [409]))
              "get" JNull [SStr "milestones"; SInt 9] [] empty_world))
  = ["Status code: 404, Content: missing"] /\
  log (snd (_request (Mock.scripted [Mock.not_found]) (init "secret" (Some [404]))
              "get" JNull [SStr "milestones"; SInt 9] [] empty_world))
  = [].
Proof.
  split.
  - apply (request_logs_exactly_unignored_errors
             (Mock.scripted [Mock.not_found]) (init "secret" (Some [409]))
             "get" JNull [SStr "milestones"; SInt 9] []
             (mkRequest "get"
                "https://api.clubhouse.io/api/v3/milestones/9?token=secret"
                [("Content-Type", "application/json")] "null" [])
             Mock.not_found empty_world);
      reflexivity.
  - apply (request_logs_exactly_unignored_errors
             (Mock.scripted [Mock.not_found]) (init "secret" (Some [404]))
             "get" JNull [SStr "milestones"; SInt 9] []
             (mkRequest "get"
                "https://api.clubhouse.io/api/v3/milestones/9?token=secret"
                [("Content-Type", "application/json")] "null" [])
             Mock.not_found empty_world);
      reflexivity.
Defined.

(** An unignored status between 300 and 399, or of 600 and more, is
    logged like an error but not raised: the dispatch returns the
    response. *)
Theorem request_returns_unraised_status t self method data segs kwargs rq r w :
  prepare self method data segs kwargs = inr rq ->
  t (calls w) rq = inr r ->
  299 < status_code r ->
  status_code r < 400 \/ 600 <= status_code r ->
  is_ignored self (status_code r) = false ->
  _request t self method data segs kwargs w
  = (Returns (Raw r), logged (sent w rq) (error_message r)).
Proof.
  intros Hp Ht H Hout Hi. rewrite (request_dispatched _ _ _ _ _ _ _ _ _ Hp Ht).
  apply classify_logged_only; assumption.
Qed.

Lemma request_returns_unraised_status_witness :
  _request (Mock.scripted [mkResponse 600 "odd" None None]) (init "secret" (Some [404]))
    "post" (JInt 1) [SStr "milestones"] [] empty_world
  = (Returns (Raw (mkResponse 600 "odd" None None)),
     logged
       (sent empty_world
          (mkRequest "post" "https://api.clubhouse.io/api/v3/milestones?token=secret"
             [("Content-Type", "application/json")] "1" []))
       "Status code: 600, Content: odd").
Proof.
  apply (request_returns_unraised_status
           (Mock.scripted [mkResponse 600 "odd" None None]) (init "secret" (Some [404]))
           "post" (JInt 1) [SStr "milestones"] [] _
           (mkResponse 600 "odd" None None) empty_world);
    try reflexivity.
  right. cbn. lia.
Defined.

(** *** What the helpers do with the outcome of the dispatch *)

Lemma list_items_raises t fuel self segs kwargs w e w' :
  _request t self "get" JNull segs kwargs w = (Raises e, w') ->
  _list_items t fuel self segs kwargs w = (Raises e, w').
Proof. intros H. unfold _list_items. apply bind_raises, H. Qed.

Lemma decoding_raises t self method data segs kwargs w e w' :
  _request t self method data segs kwargs w = (Raises e, w') ->
  (result <- _request t self method data segs kwargs ;; result_json result) w
  = (Raises e, w').
Proof. apply bind_raises. Qed.

Lemma decoding_delivered t self method data segs kwargs w r w' :
  _request t self method data segs kwargs w = (Returns (Raw r), w') ->
  (result <- _request t self method data segs kwargs ;; result_json result) w
  = (match decoded r with Some v => Returns v | None => Raises JSONDecodeError end,
     w').
Proof.
  intros H. rewrite (bind_returns _ _ _ _ _ H). cbn.
  destruct (decoded r); reflexivity.
Qed.

(** A failure raised by the transport reaches the caller of every helper
    unchanged: the one call is recorded, nothing is logged, and the list
    helper asks for no further page. *)
Theorem transport_failure_reaches_caller t self data segs kwargs url e fuel w :
  build_url segs = inr url ->
  (forall rq, t (calls w) rq = inl e) ->
  _create_item t self data segs kwargs w
  = (Raises e, sent w (request_of self "post" data url kwargs)) /\
  _get_item t self segs kwargs w
  = (Raises e, sent w (request_of self "get" JNull url kwargs)) /\
  _update_item t self data segs kwargs w
  = (Raises e, sent w (request_of self "put" data url kwargs)) /\
  _delete_item t self segs kwargs w
  = (Raises e, sent w (request_of self "delete" JNull url kwargs)) /\
  _list_items t fuel self segs kwargs w
  = (Raises e, sent w (request_of self "get" JNull url kwargs)).
Proof.
  intros Hu Ht.
  assert (H : forall method payload,
             _request t self method payload segs kwargs w
             = (Raises e, sent w (request_of self method payload url kwargs))).
  { intros method payload.
    apply request_transport_failure; [apply prepare_request_of, Hu | apply Ht]. }
  repeat split.
  - apply decoding_raises, H.
  - apply decoding_raises, H.
  - apply decoding_raises, H.
  - unfold _delete_item. rewrite bind_ret_r. apply H.
  - apply list_items_raises, H.
Qed.

Lemma transport_failure_reaches_caller_witness :
  _create_item (Mock.scripted []) (init "secret" None) (JBool false)
    [SStr "milestones"] [] empty_world
  = (Raises (TransportError "no response scripted"),
     sent empty_world
       (request_of (init "secret" None) "post" (JBool false)
          "https://api.clubhouse.io/api/v3/milestones" [])) /\
  _get_item (Mock.scripted []) (init "secret" None) [SStr "milestones"] [] empty_world
  = (Raises (TransportError "no response scripted"),
     sent empty_world
       (request_of (init "secret" None) "get" JNull
          "https://api.clubhouse.io/api/v3/milestones" [])) /\
  _update_item (Mock.scripted []) (init "secret" None) (JBool false)
    [SStr "milestones"] [] empty_world
  = (Raises (TransportError "no response scripted"),
     sent empty_world
       (request_of (init "secret" None) "put" (JBool false)
          "https://api.clubhouse.io/api/v3/milestones" [])) /\
  _delete_item (Mock.scripted []) (init "secret" None) [SStr "milestones"] [] empty_world
  = (Raises (TransportError "no response scripted"),
     sent empty_world
       (request_of (init "secret" None) "delete" JNull
          "https://api.clubhouse.io/api/v3/milestones" [])) /\
  _list_items (Mock.scripted []) 3 (init "secret" None) [SStr "milestones"] [] empty_world
  = (Raises (TransportError "no response scripted"),
     sent empty_world
       (request_of (init "secret" None) "get" JNull
          "https://api.clubhouse.io/api/v3/milestones" [])).
Proof.
  apply (transport_failure_reaches_caller (Mock.scripted []) (init "secret" None)
           (JBool false) [SStr "milestones"] []
           "https://api.clubhouse.io/api/v3/milestones"
           (TransportError "no response scripted") 3 empty_world).
  - reflexivity.
  - intros rq. reflexivity.
Defined.

(** An unignored status of the client-error or server-error range fails
    every helper, the delete helper included, with the HTTP error holding
    the response, after one call and one logged message. *)
Theorem http_error_fails_every_helper t self data segs kwargs url r fuel w :
  build_url segs = inr url ->
  (forall rq, t (calls w) rq = inr r) ->
  400 <= status_code r < 600 ->
  is_ignored self (status_code r) = false ->
  _create_item t self data segs kwargs w
  = (Raises (HTTPError r),
     logged (sent w (request_of self "post" data url kwargs)) (error_message r)) /\
  _get_item t self segs kwargs w
  = (Raises (HTTPError r),
     logged (sent w (request_of self "get" JNull url kwargs)) (error_message r)) /\
  _update_item t self data segs kwargs w
  = (Raises (HTTPError r),
     logged (sent w (request_of self "put" data url kwargs)) (error_message r)) /\
  _delete_item t self segs kwargs w
  = (Raises (HTTPError r),
     logged (sent w (request_of self "delete" JNull url kwargs)) (error_message r)) /\
  _list_items t fuel self segs kwargs w
  = (Raises (HTTPError r),
     logged (sent w (request_of self "get" JNull url kwargs)) (error_message r)).
Proof.
  intros Hu Ht Hs Hi.
  assert (H : forall method payload,
             _request t self method payload segs kwargs w
             = (Raises (HTTPError r),
                logged (sent w (request_of self method payload url kwargs))
                  (error_message r))).
  { intros method payload.
    rewrite (request_dispatched _ _ _ _ _ _ _ _ _
               (prepare_request_of self method payload segs kwargs url Hu) (Ht _)).
    apply classify_http_error; assumption. }
  repeat split.
  - apply decoding_raises, H.
  - apply decoding_raises, H.
  - apply decoding_raises, H.
  - unfold _delete_item. rewrite bind_ret_r. apply H.
  - apply list_items_raises, H.
Qed.

Lemma http_error_fails_every_helper_witness :
  fst (_delete_item (fun _ _ => inr Mock.not_found) (init "secret" (Some [500]))
         [SStr "milestones"; SInt 5] [] empty_world)
  = Raises (HTTPError Mock.not_found) /\
  fst (_list_items (fun _ _ => inr Mock.not_found) 2 (init "secret" (Some [500]))
         [SStr "milestones"; SInt 5] [] empty_world)
  = Raises (HTTPError Mock.not_found).
Proof.
  pose proof (http_error_fails_every_helper (fun _ _ => inr Mock.not_found)
                (init "secret" (Some [500])) JNull [SStr "milestones"; SInt 5] []
                "https://api.clubhouse.io/api/v3/milestones/5" Mock.not_found 2
                empty_world eq_refl (fun _ => eq_refl)) as H.
  destruct H as (_ & _ & _ & Hd & Hl).
  - cbn. lia.
  - reflexivity.
  - rewrite Hd, Hl. split; reflexivity.
Defined.

(** Against a response that is handed back, the create, get and update
    helpers return the decoded body when the body decodes and raise the
    decoding error when it does not, an ignored error status included;
    the delete helper returns the response without decoding it. *)
Theorem helpers_decode_delivered_response t self data segs kwargs url r w :
  build_url segs = inr url ->
  (forall rq, t (calls w) rq = inr r) ->
  delivered self r ->
  _create_item t self data segs kwargs w
  = (match decoded r with Some v => Returns v | None => Raises JSONDecodeError end,
     sent w (request_of self "post" data url kwargs)) /\
  _get_item t self segs kwargs w
  = (match decoded r with Some v => Returns v | None => Raises JSONDecodeError end,
     sent w (request_of self "get" JNull url kwargs)) /\
  _update_item t self data segs kwargs w
  = (match decoded r with Some v => Returns v | None => Raises JSONDecodeError end,
     sent w (request_of self "put" data url kwargs)) /\
  _delete_item t self segs kwargs w
  = (Returns (Raw r), sent w (request_of self "delete" JNull url kwargs)).
Proof.
  intros Hu Ht Hd.
  assert (H : forall method payload,
             _request t self method payload segs kwargs w
             = (Returns (Raw r), sent w (request_of self method payload url kwargs))).
  { intros method payload.
    apply request_delivered;
      [apply prepare_request_of, Hu | apply Ht | exact Hd]. }
  repeat split.
  - apply decoding_delivered, H.
  - apply decoding_delivered, H.
  - apply decoding_delivered, H.
  - unfold _delete_item. rewrite bind_ret_r. apply H.
Qed.

Lemma helpers_decode_delivered_response_witness :
  fst (_get_item (fun _ _ => inr (mkResponse 404 "gone" None None))
         (init "secret" (Some [404])) [SStr "milestones"; SInt 5] [] empty_world)
  = Raises JSONDecodeError /\
  fst (_update_item
         (fun _ _ => inr (mkResponse 200 "{}" (Some (JDict [("id", JInt 5)])) None))
         (init "secret" None) (JDict [("name", JStr "x")])
         [SStr "milestones"; SInt 5] [] empty_world)
  = Returns (JDict [("id", JInt 5)]).
Proof.
  split.
  - pose proof (helpers_decode_delivered_response
                  (fun _ _ => inr (mkResponse 404 "gone" None None))
                  (init "secret" (Some [404])) JNull [SStr "milestones"; SInt 5] []
                  "https://api.clubhouse.io/api/v3/milestones/5"
                  (mkResponse 404 "gone" None None) empty_world
                  eq_refl (fun _ => eq_refl)) as H.
    destruct H as (_ & Hg & _).
    + split; [right; reflexivity | cbn; lia].
    + rewrite Hg. reflexivity.
  - pose proof (helpers_decode_delivered_response
                  (fun _ _ => inr (mkResponse 200 "{}" (Some (JDict [("id", JInt 5)])) None))
                  (init "secret" None) (JDict [("name", JStr "x")])
                  [SStr "milestones"; SInt 5] []
                  "https://api.clubhouse.io/api/v3/milestones/5"
                  (mkResponse 200 "{}" (Some (JDict [("id", JInt 5)])) None) empty_world
                  eq_refl (fun _ => eq_refl)) as H.
    destruct H as (_ & _ & Hu & _).
    + split; [left; cbn; lia | cbn; lia].
    + rewrite Hu. reflexivity.
Defined.

(** *** The requests of the milestone operations *)

Lemma uint_chars d : all_chars is_decimal (NilEmpty.string_of_uint d) = true.
Proof. induction d; cbn [NilEmpty.string_of_uint all_chars]; try rewrite IHd; reflexivity. Qed.

Lemma str_of_int_chars n : all_chars is_decimal (str_of_int n) = true.
Proof.
  unfold str_of_int. destruct (Z.to_int n) as [d | d]; cbn [NilZero.string_of_int].
  - destruct d; try reflexivity; apply (uint_chars (_ d)).
  - cbn [all_chars]. destruct d; try reflexivity; apply (uint_chars (_ d)).
Qed.

Lemma all_chars_absent p c s :
  all_chars p s = true -> p c = false -> contains_char c s = false.
Proof.
  intros Hs Hc. induction s as [| a s IH]; [reflexivity |].
  cbn in Hs. apply andb_true_iff in Hs as [Ha Hs].
  rewrite contains_char_cons, (IH Hs), orb_false_r.
  destruct (Ascii.eqb_spec a c) as [-> |]; [congruence | reflexivity].
Qed.

Lemma all_chars_head p c a s :
  all_chars p (String a s) = true -> p c = false -> Ascii.eqb a c = false.
Proof.
  intros Hs Hc. cbn in Hs. apply andb_true_iff in Hs as [Ha _].
  destruct (Ascii.eqb_spec a c) as [-> |]; [congruence | reflexivity].
Qed.

Lemma all_chars_strip p c s :
  all_chars p s = true -> p c = false -> strip c s = s.
Proof.
  intros Hs Hc. unfold strip.
  assert (Hl : lstrip c s = s).
  { destruct s as [| a s]; [reflexivity |].
    cbn. rewrite (all_chars_head p c a s Hs Hc). reflexivity. }
  rewrite Hl. clear Hl. induction s as [| a s IH]; [reflexivity |].
  cbn [rstrip]. rewrite (all_chars_head p c a s Hs Hc). cbn [andb].
  cbn in Hs. apply andb_true_iff in Hs as [_ Hs]. rewrite (IH Hs). reflexivity.
Qed.

Lemma all_chars_not_last p c s :
  all_chars p s = true -> p c = false -> endswith_char s c = false.
Proof.
  intros Hs Hc. induction s as [| a s IH]; [reflexivity |].
  pose proof (all_chars_head p c a s Hs Hc) as Ha.
  cbn in Hs. apply andb_true_iff in Hs as [_ Hs].
  cbn [endswith_char]. destruct s; [exact Ha | exact (IH Hs)].
Qed.

Lemma all_chars_not_first p c s :
  all_chars p s = true -> p c = false ->
  startswith s (String c EmptyString) = false.
Proof.
  intros Hs Hc. destruct s as [| a s]; [reflexivity |].
  cbn. rewrite (all_chars_head p c a s Hs Hc). reflexivity.
Qed.

Lemma contains_char_app c x y :
  contains_char c (x ++ y) = contains_char c x || contains_char c y.
Proof.
  induction x as [| a x IH]; [reflexivity |].
  cbn [append]. rewrite !contains_char_cons, IH. apply orb_assoc.
Qed.

(** The URL of one milestone, and of its epics, for an integer
    identifier. *)
Lemma milestone_url n :
  build_url [SStr "milestones"; SInt n]
  = inr ("https://api.clubhouse.io/api/v3/milestones/" ++ str_of_int n).
Proof.
  unfold build_url, anchor, join_segments. cbn [startswith Ascii.eqb andb negb
    ENDPOINT_PATH Bool.eqb map str]. unfold path_join. cbn [fold_left].
  rewrite (all_chars_strip is_decimal "/" _ (str_of_int_chars n) eq_refl).
  unfold join_step at 1.
  rewrite (all_chars_not_first is_decimal "/" _ (str_of_int_chars n) eq_refl).
  reflexivity.
Qed.

Lemma milestone_epics_url n :
  build_url [SStr "milestones"; SInt n; SStr "epics"]
  = inr ("https://api.clubhouse.io/api/v3/milestones/" ++ str_of_int n ++ "/epics").
Proof.
  unfold build_url, anchor, join_segments. cbn [startswith Ascii.eqb andb negb
    ENDPOINT_PATH Bool.eqb map str]. unfold path_join. cbn [fold_left].
  rewrite (all_chars_strip is_decimal "/" _ (str_of_int_chars n) eq_refl).
  unfold join_step at 2.
  rewrite (all_chars_not_first is_decimal "/" _ (str_of_int_chars n) eq_refl).
  change (join_step (join_step ENDPOINT_HOST (strip "/" ENDPOINT_PATH))
            (strip "/" "milestones"))
    with "https://api.clubhouse.io/api/v3/milestones".
  cbn [is_empty orb endswith_char Ascii.eqb Bool.eqb].
  change (strip "/" "epics") with "epics".
  unfold join_step. cbn [startswith Ascii.eqb Bool.eqb andb].
  rewrite is_empty_app. cbn [is_empty andb orb].
  rewrite endswith_char_app.
  assert (Hne : is_empty ("/" ++ str_of_int n) = false) by reflexivity.
  rewrite Hne.
  assert (He : endswith_char ("/" ++ str_of_int n) "/" = false).
  { cbn [append]. pose proof (all_chars_not_last is_decimal "/" _ (str_of_int_chars n) eq_refl) as H.
    pose proof (str_of_int_chars n) as Hc.
    destruct (str_of_int n) eqn:E; [| exact H].
    unfold str_of_int in E. destruct (Z.to_int n) as [[] | []]; discriminate. }
  rewrite He. rewrite append_assoc. reflexivity.
Qed.

Lemma request_records_call t self method data segs kwargs rq w :
  prepare self method data segs kwargs = inr rq ->
  calls (snd (_request t self method data segs kwargs w)) = (calls w ++ [rq])%list.
Proof.
  intros Hp. destruct (t (calls w) rq) as [e | r] eqn:Ht.
  - rewrite (request_transport_failure _ _ _ _ _ _ _ _ _ Hp Ht). reflexivity.
  - rewrite (request_dispatched _ _ _ _ _ _ _ _ _ Hp Ht).
    rewrite classify_keeps_calls. reflexivity.
Qed.

Lemma decoding_keeps_world (m : M Result) w :
  snd ((result <- m ;; result_json result) w) = snd (m w).
Proof.
  unfold bind. destruct (m w) as [[[| r] | e |] w']; try reflexivity.
  cbn. destruct (decoded r); reflexivity.
Qed.

Lemma plain_url_request self method data segs kwargs url :
  build_url segs = inr url ->
  contains_char "?" url = false ->
  prepare self method data segs kwargs
  = inr (mkRequest method (url ++ "?token=" ++ api_key self)
           [("Content-Type", "application/json")] (dumps data) kwargs).
Proof.
  intros Hu Hq. rewrite (prepare_total self method data segs kwargs url Hu).
  rewrite (proj1 (with_token_cases self url)
             (query_empty_without_question_mark url Hq)).
  reflexivity.
Qed.

Lemma milestone_url_plain n :
  contains_char "?" ("https://api.clubhouse.io/api/v3/milestones/" ++ str_of_int n)
  = false.
Proof.
  rewrite contains_char_app.
  rewrite (all_chars_absent is_decimal "?" _ (str_of_int_chars n) eq_refl).
  reflexivity.
Qed.

Lemma milestone_epics_url_plain n :
  contains_char "?"
    ("https://api.clubhouse.io/api/v3/milestones/" ++ str_of_int n ++ "/epics")
  = false.
Proof.
  rewrite !contains_char_app.
  rewrite (all_chars_absent is_decimal "?" _ (str_of_int_chars n) eq_refl).
  reflexivity.
Qed.

(** The milestone operations that make one call, for every integer
    identifier, payload and transport: create posts the payload to the
    collection, get, update and delete address the milestone by the
    decimal writing of the identifier, and each adds the key with
    [?token=]. *)
Theorem milestone_operations_requests t self n data kwargs w :
  calls (snd (create_milestone t self data kwargs w))
  = (calls w ++
     [mkRequest "post"
        ("https://api.clubhouse.io/api/v3/milestones" ++ "?token=" ++ api_key self)
        [("Content-Type", "application/json")] (dumps data) kwargs])%list /\
  calls (snd (get_milestone t self (SInt n) kwargs w))
  = (calls w ++
     [mkRequest "get"
        (("https://api.clubhouse.io/api/v3/milestones/" ++ str_of_int n)
         ++ "?token=" ++ api_key self)
        [("Content-Type", "application/json")] "null" kwargs])%list /\
  calls (snd (update_milestone t self (SInt n) data kwargs w))
  = (calls w ++
     [mkRequest "put"
        (("https://api.clubhouse.io/api/v3/milestones/" ++ str_of_int n)
         ++ "?token=" ++ api_key self)
        [("Content-Type", "application/json")] (dumps data) kwargs])%list /\
  calls (snd (delete_milestone t self (SInt n) kwargs w))
  = (calls w ++
     [mkRequest "delete"
        (("https://api.clubhouse.io/api/v3/milestones/" ++ str_of_int n)
         ++ "?token=" ++ api_key self)
        [("Content-Type", "application/json")] "null" kwargs])%list.
Proof.
  repeat split.
  - unfold create_milestone, _create_item. rewrite decoding_keeps_world.
    apply request_records_call. apply plain_url_request; reflexivity.
  - unfold get_milestone, _get_item. rewrite decoding_keeps_world.
    apply request_records_call.
    apply (plain_url_request self "get" JNull);
      [apply milestone_url | apply milestone_url_plain].
  - unfold update_milestone, _update_item. rewrite decoding_keeps_world.
    apply request_records_call.
    apply plain_url_request; [apply milestone_url | apply milestone_url_plain].
  - unfold delete_milestone, _delete_item. rewrite bind_ret_r.
    apply request_records_call.
    apply (plain_url_request self "delete" JNull);
      [apply milestone_url | apply milestone_url_plain].
Qed.

Lemma request_extends t self method data segs kwargs w :
  exists more,
    calls (snd (_request t self method data segs kwargs w)) = (calls w ++ more)%list.
Proof.
  destruct (prepare self method data segs kwargs) as [e | rq] eqn:Hp.
  - rewrite (request_not_prepared _ _ _ _ _ _ _ _ Hp). exists [].
    symmetry. apply app_nil_r.
  - exists [rq]. apply request_records_call, Hp.
Qed.

Lemma list_loop_extends t self kwargs fuel :
  forall result items w,
  exists more,
    calls (snd (list_loop t fuel self kwargs result items w)) = (calls w ++ more)%list.
Proof.
  induction fuel as [| fuel IH]; intros result items w.
  - cbn [list_loop]. unfold bind. destruct result as [| r]; cbn.
    + exists []. symmetry. apply app_nil_r.
    + destruct (truthy (next r)); exists []; symmetry; apply app_nil_r.
  - cbn [list_loop]. unfold bind at 1. destruct result as [| r]; cbn [result_next raise ret].
    + exists []. symmetry. apply app_nil_r.
    + destruct (truthy (next r)); [| exists []; symmetry; apply app_nil_r].
      unfold bind at 1.
      destruct (request_extends t self "get" JNull
                  [SStr match next r with Some c => c | None => EmptyString end]
                  kwargs w) as [m1 H1].
      destruct (_request t self "get" JNull _ kwargs w) as [[res | e |] w1] eqn:E;
        cbn [snd] in H1; try (exists m1; exact H1).
      destruct items as [| | | | l |]; try (exists m1; exact H1).
      unfold bind at 1.
      destruct (result_json res w1) as [[page | e |] w2] eqn:E2;
        assert (w2 = w1) as ->
          by (destruct res as [| r']; cbn in E2;
              [ injection E2 as _ <-; reflexivity
              | destruct (decoded r'); injection E2 as _ <-; reflexivity ]);
        try (exists m1; exact H1).
      unfold bind at 1.
      destruct (extend l page w1) as [[items' | e |] w3] eqn:E3;
        assert (w3 = w1) as ->
          by (destruct page; cbn in E3; injection E3 as _ <-; reflexivity);
        try (exists m1; exact H1).
      destruct (IH res items' w1) as [m2 H2].
      exists (m1 ++ m2)%list. rewrite H2, H1. symmetry. apply app_assoc.
Qed.

(** The list operations start with a GET of the collection, for every
    integer identifier, transport and fuel; whatever calls follow come
    after it. *)
Theorem list_operations_first_request t fuel self n kwargs w :
  (exists more,
      calls (snd (list_milestones t fuel self kwargs w))
      = (calls w ++
         mkRequest "get"
           ("https://api.clubhouse.io/api/v3/milestones" ++ "?token=" ++ api_key self)
           [("Content-Type", "application/json")] "null" kwargs :: more)%list) /\
  (exists more,
      calls (snd (list_milestone_epics t fuel self (SInt n) kwargs w))
      = (calls w ++
         mkRequest "get"
           (("https://api.clubhouse.io/api/v3/milestones/" ++ str_of_int n ++ "/epics")
            ++ "?token=" ++ api_key self)
           [("Content-Type", "application/json")] "null" kwargs :: more)%list).
Proof.
  assert (H : forall segs rq,
             prepare self "get" JNull segs kwargs = inr rq ->
             exists more,
               calls (snd (_list_items t fuel self segs kwargs w))
               = (calls w ++ rq :: more)%list).
  { intros segs rq Hp. pose proof (request_records_call t _ _ _ _ _ _ w Hp) as Hc.
    unfold _list_items. unfold bind at 1.
    destruct (_request t self "get" JNull segs kwargs w) as [[res | e |] w1];
      cbn [snd] in Hc; try (exists []; exact Hc).
    unfold bind at 1.
    destruct (result_json res w1) as [[items | e |] w2] eqn:E2;
      assert (w2 = w1) as ->
        by (destruct res as [| r']; cbn in E2;
            [ injection E2 as _ <-; reflexivity
            | destruct (decoded r'); injection E2 as _ <-; reflexivity ]);
      try (exists []; exact Hc).
    destruct (list_loop_extends t self kwargs fuel res items w1) as [more Hm].
    exists more. rewrite Hm, Hc, <- app_assoc. reflexivity. }
  split.
  - apply H. apply (plain_url_request self "get" JNull); reflexivity.
  - apply H. apply (plain_url_request self "get" JNull);
      [apply milestone_epics_url | apply milestone_epics_url_plain].
Qed.

(** *** The pagination loop *)

Lemma list_loop_turn t fuel self kwargs r c items w :
  next r = Some c -> is_empty c = false ->
  list_loop t (S fuel) self kwargs (Raw r) items w
  = (result <- _request t self "get" JNull [SStr c] kwargs ;;
     match items with
     | JList l =>
         page <- result_json result ;;
         items <- extend l page ;;
         list_loop t fuel self kwargs result items
     | _ => raise (AttributeError (type_name items) "extend")
     end) w.
Proof.
  intros Hn Hc. cbn [list_loop]. unfold bind at 1. cbn [result_next ret].
  rewrite Hn. cbn [truthy]. rewrite Hc. reflexivity.
Qed.




Lemma list_loop_keeps_turning t self kwargs r l fuel :
  (forall h rq, t h rq = inr r) ->
  delivered self r -> decoded r = Some (JList l) -> truthy (next r) = true ->
  forall acc w,
    fst (list_loop t fuel self kwargs (Raw r) (JList acc) w) = OutOfFuel /\
    length (calls (snd (list_loop t fuel self kwargs (Raw r) (JList acc) w)))
    = (length (calls w) + fuel)%nat.
Proof.
  intros Ht Hd Hl Hn. apply truthy_cursor in Hn as (c & Hc & Hne).
  induction fuel as [| fuel IH]; intros acc w.
  - cbn [list_loop]. unfold bind. cbn [result_next ret]. rewrite Hc. cbn [truthy].
    rewrite Hne. cbn. split; [reflexivity | lia].
  - destruct (cursor_request self c kwargs) as [q Hq].
    rewrite (list_loop_step t fuel self kwargs r c acc q r w Hc Hne Hq (Ht _ _) Hd).
    unfold bind at 1 3. cbn [result_json]. rewrite Hl. cbn [ret].
    unfold bind at 1 2. cbn [extend ret].
    destruct (IH (acc ++ l)%list (sent w q)) as [Ho Hcalls].
    rewrite Ho, Hcalls. split; [reflexivity |].
    unfold sent. cbn [calls]. rewrite length_app. cbn [length]. lia.
Qed.

(** A server whose every answer is a page with a cursor keeps the loop
    asking: no amount of fuel lets the list helper return or raise, and a
    run with fuel [n] has made [n + 1] calls. *)
Theorem list_items_never_stops_while_cursor t self segs kwargs url r l fuel w :
  build_url segs = inr url ->
  (forall h rq, t h rq = inr r) ->
  delivered self r -> decoded r = Some (JList l) -> truthy (next r) = true ->
  fst (_list_items t fuel self segs kwargs w) = OutOfFuel /\
  length (calls (snd (_list_items t fuel self segs kwargs w)))
  = (length (calls w) + S fuel)%nat.
Proof.
  intros Hu Ht Hd Hl Hn. unfold _list_items. unfold bind at 1 3.
  rewrite (request_delivered _ _ _ _ _ _ _ _ _
             (prepare_request_of self "get" JNull segs kwargs url Hu) (Ht _ _) Hd).
  unfold bind at 1 2. cbn [result_json]. rewrite Hl. cbn [ret].
  destruct (list_loop_keeps_turning t self kwargs r l fuel Ht Hd Hl Hn l
              (sent w (request_of self "get" JNull url kwargs))) as [Ho Hcalls].
  rewrite Ho, Hcalls. split; [reflexivity |].
  unfold sent. cbn [calls]. rewrite length_app. cbn [length]. lia.
Qed.

Lemma list_items_never_stops_while_cursor_witness :
  fst (_list_items
         (fun _ _ => inr (mkResponse 200 "[1]" (Some (JList [JInt 1]))
                            (Some "milestones")))
         4 (init "secret" None) [SStr "milestones"] [] empty_world)
  = OutOfFuel /\
  length (calls (snd (_list_items
         (fun _ _ => inr (mkResponse 200 "[1]" (Some (JList [JInt 1]))
                            (Some "milestones")))
         4 (init "secret" None) [SStr "milestones"] [] empty_world)))
  = (length (calls empty_world) + 5)%nat.
Proof.
  apply (list_items_never_stops_while_cursor
           (fun _ _ => inr (mkResponse 200 "[1]" (Some (JList [JInt 1]))
                              (Some "milestones")))
           (init "secret" None) [SStr "milestones"] []
           "https://api.clubhouse.io/api/v3/milestones"
           (mkResponse 200 "[1]" (Some (JList [JInt 1])) (Some "milestones"))
           [JInt 1] 4 empty_world); try reflexivity.
  split; [left; cbn; lia | cbn; lia].
Defined.

(** When the first page has no cursor the list helper returns what that
    page decodes to, whether or not it is a list, after a single call and
    with any fuel, none included. *)
Theorem list_items_single_page t self segs kwargs q r v fuel w :
  prepare self "get" JNull segs kwargs = inr q ->
  t (calls w) q = inr r ->
  delivered self r ->
  decoded r = Some v ->
  truthy (next r) = false ->
  _list_items t fuel self segs kwargs w = (Returns v, sent w q).
Proof.
  intros Hp Ht Hd Hv Hn. unfold _list_items. unfold bind at 1.
  rewrite (request_delivered _ _ _ _ _ _ _ _ _ Hp Ht Hd).
  unfold bind at 1. cbn [result_json]. rewrite Hv. cbn [ret].
  apply list_loop_stops, Hn.
Qed.

Lemma list_items_single_page_witness :
  _list_items
    (Mock.scripted [mkResponse 200 "{}" (Some (JDict [("total", JInt 0)])) (Some "")])
    0 (init "secret" None) [SStr "milestones"] [] empty_world
  = (Returns (JDict [("total", JInt 0)]),
     sent empty_world
       (mkRequest "get" "https://api.clubhouse.io/api/v3/milestones?token=secret"
          [("Content-Type", "application/json")] "null" [])).
Proof.
  apply (list_items_single_page
           (Mock.scripted
              [mkResponse 200 "{}" (Some (JDict [("total", JInt 0)])) (Some "")])
           (init "secret" None) [SStr "milestones"] [] _
           (mkResponse 200 "{}" (Some (JDict [("total", JInt 0)])) (Some ""))
           (JDict [("total", JInt 0)]) 0 empty_world); try reflexivity.
  split; [left; cbn; lia | cbn; lia].
Defined.

(** A later page that fails takes the earlier pages with it: when the
    follow-up request is answered with an unignored client or server
    error, the list helper raises that error and returns none of the
    items it had gathered. *)
Theorem list_items_drops_pages_on_error t self segs kwargs q1 q2 r1 r2 l1 c fuel w :
  prepare self "get" JNull segs kwargs = inr q1 ->
  prepare self "get" JNull [SStr c] kwargs = inr q2 ->
  t (calls w) q1 = inr r1 ->
  t (calls w ++ [q1])%list q2 = inr r2 ->
  delivered self r1 ->
  decoded r1 = Some (JList l1) -> next r1 = Some c -> is_empty c = false ->
  400 <= status_code r2 < 600 ->
  is_ignored self (status_code r2) = false ->
  (0 < fuel)%nat ->
  _list_items t fuel self segs kwargs w
  = (Raises (HTTPError r2),
     mkWorld (calls w ++ [q1; q2]) (log w ++ [error_message r2])).
Proof.
  intros Hp1 Hp2 Ht1 Ht2 Hd1 Hj1 Hn1 Hc Hs2 Hi2 Hfuel.
  destruct fuel as [| fuel]; [lia |].
  unfold _list_items. unfold bind at 1.
  rewrite (request_delivered _ _ _ _ _ _ _ _ _ Hp1 Ht1 Hd1).
  unfold bind at 1. cbn [result_json]. rewrite Hj1. cbn [ret].
  rewrite (list_loop_turn t fuel self kwargs r1 c (JList l1) (sent w q1) Hn1 Hc).
  unfold bind at 1.
  rewrite (request_dispatched t self "get" JNull [SStr c] kwargs q2 r2 (sent w q1) Hp2 Ht2).
  rewrite classify_http_error by assumption.
  unfold logged, sent. cbn [calls log]. rewrite <- app_assoc. reflexivity.
Qed.

Lemma list_items_drops_pages_on_error_witness :
  _list_items
    (Mock.scripted
       [mkResponse 200 "[1]" (Some (JList [JInt 1])) (Some "milestones?page=2");
        Mock.not_found])
    3 (init "secret" None) [SStr "milestones"] [] empty_world
  = (Raises (HTTPError Mock.not_found),
     mkWorld
       [mkRequest "get" "https://api.clubhouse.io/api/v3/milestones?token=secret"
          [("Content-Type", "application/json")] "null" [];
        mkRequest "get"
          "https://api.clubhouse.io/api/v3/milestones?page=2&token=secret"
          [("Content-Type", "application/json")] "null" []]
       ["Status code: 404, Content: missing"]).
Proof.
  apply (list_items_drops_pages_on_error
           (Mock.scripted
              [mkResponse 200 "[1]" (Some (JList [JInt 1])) (Some "milestones?page=2");
               Mock.not_found])
           (init "secret" None) [SStr "milestones"] [] _ _
           (mkResponse 200 "[1]" (Some (JList [JInt 1])) (Some "milestones?page=2"))
           Mock.not_found [JInt 1] "milestones?page=2" 3 empty_world);
    try reflexivity.
  - split; [left; cbn; lia | cbn; lia].
  - cbn. lia.
  - lia.
Defined.

(** When the first page decodes to something other than a list and
    offers a cursor, the follow-up request is made and answered before
    the helper fails for want of an [extend] on what it holds. *)
Theorem list_items_cannot_extend_non_list
    t self segs kwargs q1 q2 r1 r2 v c fuel w :
  prepare self "get" JNull segs kwargs = inr q1 ->
  prepare self "get" JNull [SStr c] kwargs = inr q2 ->
  t (calls w) q1 = inr r1 ->
  t (calls w ++ [q1])%list q2 = inr r2 ->
  delivered self r1 -> delivered self r2 ->
  decoded r1 = Some v -> is_list v = false ->
  next r1 = Some c -> is_empty c = false ->
  (0 < fuel)%nat ->
  _list_items t fuel self segs kwargs w
  = (Raises (AttributeError (type_name v) "extend"),
     mkWorld (calls w ++ [q1; q2]) (log w)).
Proof.
  intros Hp1 Hp2 Ht1 Ht2 Hd1 Hd2 Hj1 Hv Hn1 Hc Hfuel.
  destruct fuel as [| fuel]; [lia |].
  unfold _list_items. unfold bind at 1.
  rewrite (request_delivered _ _ _ _ _ _ _ _ _ Hp1 Ht1 Hd1).
  unfold bind at 1. cbn [result_json]. rewrite Hj1. cbn [ret].
  rewrite (list_loop_turn t fuel self kwargs r1 c v (sent w q1) Hn1 Hc).
  unfold bind at 1.
  rewrite (request_delivered t self "get" JNull [SStr c] kwargs q2 r2 (sent w q1)
             Hp2 Ht2 Hd2).
  unfold sent, raise. cbn [calls log]. rewrite <- app_assoc.
  destruct v; try reflexivity. discriminate.
Qed.

Lemma list_items_cannot_extend_non_list_witness :
  _list_items
    (Mock.scripted
       [mkResponse 200 "{}" (Some (JDict [("data", JList [])])) (Some "milestones?page=2");
        mkResponse 200 "[]" (Some (JList [])) None])
    1 (init "secret" None) [SStr "milestones"] [] empty_world
  = (Raises (AttributeError "dict" "extend"),
     mkWorld
       [mkRequest "get" "https://api.clubhouse.io/api/v3/milestones?token=secret"
          [("Content-Type", "application/json")] "null" [];
        mkRequest "get"
          "https://api.clubhouse.io/api/v3/milestones?page=2&token=secret"
          [("Content-Type", "application/json")] "null" []]
       []).
Proof.
  apply (list_items_cannot_extend_non_list
           (Mock.scripted
              [mkResponse 200 "{}" (Some (JDict [("data", JList [])]))
                 (Some "milestones?page=2");
               mkResponse 200 "[]" (Some (JList [])) None])
           (init "secret" None) [SStr "milestones"] [] _ _
           (mkResponse 200 "{}" (Some (JDict [("data", JList [])]))
              (Some "milestones?page=2"))
           (mkResponse 200 "[]" (Some (JList [])) None)
           (JDict [("data", JList [])]) "milestones?page=2" 1 empty_world);
    try reflexivity.
  - split; [left; cbn; lia | cbn; lia].
  - split; [left; cbn; lia | cbn; lia].
  - lia.
Defined.

Lemma list_items_all_pages_witness :
  exists w',
    _list_items
      (Mock.scripted
         [mkResponse 200 "[1, 2]" (Some (JList [JInt 1; JInt 2])) (Some "milestones?page=2");
          mkResponse 200 "[]" (Some (JList [])) (Some "milestones?page=3");
          mkResponse 200 "[3]" (Some (JList [JInt 3])) None])
      2 (init "secret" None) [SStr "milestones"] [] empty_world
    = (Returns
         (JList
            (flat_map page_items
               [mkResponse 200 "[1, 2]" (Some (JList [JInt 1; JInt 2]))
                  (Some "milestones?page=2");
                mkResponse 200 "[]" (Some (JList [])) (Some "milestones?page=3");
                mkResponse 200 "[3]" (Some (JList [JInt 3])) None])), w') /\
    length (calls w') = 3%nat /\
    log w' = [].
Proof.
  apply (list_items_all_pages (init "secret" None) [SStr "milestones"] []
           "https://api.clubhouse.io/api/v3/milestones"
           (mkResponse 200 "[1, 2]" (Some (JList [JInt 1; JInt 2]))
              (Some "milestones?page=2"))
           [mkResponse 200 "[]" (Some (JList [])) (Some "milestones?page=3");
            mkResponse 200 "[3]" (Some (JList [JInt 3])) None]
           2).
  - reflexivity.
  - repeat constructor; try (left; cbn; lia); try (cbn; lia);
      eexists; reflexivity.
  - repeat split.
  - cbn. lia.
Defined.

(** *** Witnesses of the URL properties *)

Lemma build_url_anchored_witness :
  startswith "https://api.clubhouse.io/api/v3/search/stories?page_size=5"
    (ENDPOINT_HOST ++ ENDPOINT_PATH) = true /\
  startswith "https://api.clubhouse.io/api/v3/milestones/12"
    (ENDPOINT_HOST ++ ENDPOINT_PATH) = true.
Proof.
  split.
  - apply (build_url_anchored [SStr "/api/v3/search/stories?page_size=5"]).
    reflexivity.
  - apply (build_url_anchored [SStr "milestones"; SInt 12]). reflexivity.
Defined.

Lemma token_after_plain_path_witness :
  rq_url (mkRequest "get"
            "https://api.clubhouse.io/api/v3/milestones/12/epics?token=secret"
            [("Content-Type", "application/json")] "null" [])
  = "https://api.clubhouse.io/api/v3/milestones/12/epics"
    ++ "?token=" ++ api_key (init "secret" None).
Proof.
  apply (token_after_plain_path (init "secret" None) "get" JNull
           [SStr "milestones"; SInt 12; SStr "epics"] []
           "https://api.clubhouse.io/api/v3/milestones/12/epics" _);
    reflexivity.
Defined.

(** *** Segments the dispatch cannot use *)

(** Without a segment every helper and every generic verb raises the
    index error of [segments[0]]; with an integer in first position every
    helper raises the attribute error of [startswith]. In both cases
    nothing is sent and nothing is logged. *)
Theorem helpers_reject_unusable_segments t self data n rest kwargs fuel w :
  (_create_item t self data [] kwargs w = (Raises IndexError, w) /\
   _get_item t self [] kwargs w = (Raises IndexError, w) /\
   _update_item t self data [] kwargs w = (Raises IndexError, w) /\
   _delete_item t self [] kwargs w = (Raises IndexError, w) /\
   _list_items t fuel self [] kwargs w = (Raises IndexError, w) /\
   get t self [] kwargs w = (Raises IndexError, w) /\
   post t self [] kwargs w = (Raises IndexError, w) /\
   put t self [] kwargs w = (Raises IndexError, w) /\
   delete t self [] kwargs w = (Raises IndexError, w)) /\
  (_create_item t self data (SInt n :: rest) kwargs w
   = (Raises (AttributeError "int" "startswith"), w) /\
   _get_item t self (SInt n :: rest) kwargs w
   = (Raises (AttributeError "int" "startswith"), w) /\
   _update_item t self data (SInt n :: rest) kwargs w
   = (Raises (AttributeError "int" "startswith"), w) /\
   _delete_item t self (SInt n :: rest) kwargs w
   = (Raises (AttributeError "int" "startswith"), w) /\
   _list_items t fuel self (SInt n :: rest) kwargs w
   = (Raises (AttributeError "int" "startswith"), w)).
Proof.
  repeat split.
Qed.

(** *** The body is printable ASCII *)

Lemma all_chars_app p x y :
  all_chars p (x ++ y) = all_chars p x && all_chars p y.
Proof.
  induction x as [| a x IH]; [reflexivity |].
  cbn. rewrite IH. apply andb_assoc.
Qed.

Lemma all_chars_weaken (p q : ascii -> bool) s :
  (forall a, p a = true -> q a = true) ->
  all_chars p s = true -> all_chars q s = true.
Proof.
  intros Hpq. induction s as [| a s IH]; [reflexivity |].
  cbn. intros H. apply andb_true_iff in H as [Ha Hs].
  rewrite (Hpq a Ha), (IH Hs). reflexivity.
Qed.

Lemma decimal_printable a : is_decimal a = true -> printable a = true.
Proof.
  destruct a as [[] [] [] [] [] [] [] []]; intros H;
    first [reflexivity | discriminate H].
Qed.

Lemma escape_char_printable a : all_chars printable (escape_char a) = true.
Proof.
  destruct a as [[] [] [] [] [] [] [] []]; reflexivity.
Qed.

Lemma encode_printable s : all_chars printable (encode_basestring_ascii s) = true.
Proof.
  unfold encode_basestring_ascii. cbn [all_chars].
  rewrite all_chars_app. cbn.
  rewrite andb_true_r. induction s as [| a s IH]; [reflexivity |].
  cbn [escape_body]. rewrite all_chars_app, escape_char_printable, IH. reflexivity.
Qed.

Lemma concat_printable sep ls :
  all_chars printable sep = true ->
  Forall (fun x => all_chars printable x = true) ls ->
  all_chars printable (String.concat sep ls) = true.
Proof.
  intros Hsep Hls. induction Hls as [| x ls Hx Hls IH]; [reflexivity |].
  cbn [String.concat]. destruct ls as [| y ls]; [exact Hx |].
  rewrite !all_chars_app, Hx, Hsep, IH. reflexivity.
Qed.

Lemma entry_printable k s :
  all_chars printable s = true ->
  all_chars printable (encode_basestring_ascii k ++ ": " ++ s) = true.
Proof.
  intros Hs. rewrite !all_chars_app, encode_printable, Hs. reflexivity.
Qed.

Lemma dumps_printable : forall v, all_chars printable (dumps v) = true.
Proof.
  fix IH 1. intros [| b | n | s | l | kvs]; cbn [dumps].
  - reflexivity.
  - destruct b; reflexivity.
  - apply (all_chars_weaken is_decimal); [apply decimal_printable | apply str_of_int_chars].
  - apply encode_printable.
  - cbn [append all_chars]. rewrite all_chars_app. cbn.
    rewrite andb_true_r. apply concat_printable; [reflexivity |].
    induction l as [| x l IHl]; cbn [map]; constructor; [apply IH | exact IHl].
  - cbn [append all_chars]. rewrite all_chars_app. cbn.
    rewrite andb_true_r. apply concat_printable; [reflexivity |].
    induction kvs as [| [k x] kvs IHk]; cbn [map]; constructor; [| exact IHk].
    apply (entry_printable k (dumps x)), IH.
Qed.

(** Whatever the payload, the body handed to the transport consists of
    printable ASCII only: every other character of a string or of a key
    leaves as an escape. *)
Theorem request_body_is_printable_ascii self method data segs kwargs rq :
  prepare self method data segs kwargs = inr rq ->
  all_chars printable (rq_data rq) = true.
Proof.
  intros Hp. apply prepare_inv in Hp as (url & _ & ->). apply dumps_printable.
Qed.

Lemma request_body_is_printable_ascii_witness :
  all_chars printable
    (rq_data
       (mkRequest "post" "https://api.clubhouse.io/api/v3/milestones?token=secret"
          [("Content-Type", "application/json")]
          (dumps (JDict [("name", JStr (String "233" (String "010" "t")))]))
          []))
  = true.
Proof.
  apply (request_body_is_printable_ascii (init "secret" None) "post"
           (JDict [("name", JStr (String "233" (String "010" "t")))])
           [SStr "milestones"] []).
  reflexivity.
Defined.

Example dumps_escapes :
  dumps (JDict [("name", JStr (String "233" (String "010" "t")))])
  = "{" ++ String quote ("name" ++ String quote (": " ++ String quote
       ("\u00e9\nt" ++ String quote "}"))).
Proof. reflexivity. Qed.

(** *** The query of a URL with a question mark *)

Lemma remove_chars_app bad x y :
  remove_chars bad (x ++ y) = remove_chars bad x ++ remove_chars bad y.
Proof.
  induction x as [| a x IH]; [reflexivity |].
  cbn. destruct (bad a); rewrite IH; reflexivity.
Qed.

Lemma split_once_at c x y :
  contains_char c x = false ->
  split_once c (x ++ String c y) = Some (x, y).
Proof.
  induction x as [| a x IH]; intros H.
  - cbn. rewrite Ascii.eqb_refl. reflexivity.
  - rewrite contains_char_cons in H. apply orb_false_iff in H as [Ha Hx].
    cbn. rewrite Ha, (IH Hx). reflexivity.
Qed.

Lemma split_once_past c d x y :
  contains_char c x = false -> Ascii.eqb d c = false ->
  split_once c (x ++ String d y)
  = match split_once c y with
    | Some (p, s) => Some (x ++ String d p, s)
    | None => None
    end.
Proof.
  intros Hx Hd. induction x as [| a x IH].
  - cbn. rewrite Hd. destruct (split_once c y) as [[p s] |]; reflexivity.
  - rewrite contains_char_cons in Hx. apply orb_false_iff in Hx as [Ha Hx].
    cbn. rewrite Ha, (IH Hx).
    destruct (split_once c y) as [[p s] |]; reflexivity.
Qed.

(** The query of a URL whose first question mark comes before any [#]:
    what follows that question mark, without tabs and line ends, up to
    the fragment. *)
Lemma query_after_question_mark base q :
  contains_char "?" base = false ->
  contains_char "#" base = false ->
  urlparse_query (base ++ String "?" q)
  = before_fragment (remove_chars unsafe_url_char q).
Proof.
  intros Hq Hf. unfold urlparse_query, before_fragment.
  rewrite remove_chars_app.
  change (remove_chars unsafe_url_char (String "?" q))
    with (String "?" (remove_chars unsafe_url_char q)).
  pose proof (remove_chars_keeps_absent unsafe_url_char _ _ Hq) as Hq'.
  pose proof (remove_chars_keeps_absent unsafe_url_char _ _ Hf) as Hf'.
  set (x := remove_chars unsafe_url_char base) in *.
  set (y := remove_chars unsafe_url_char q).
  rewrite (split_once_past "#" "?" x y Hf' eq_refl).
  destruct (split_once "#" y) as [[p s] |];
    rewrite split_once_at by exact Hq'; reflexivity.
Qed.

(** When the constructed URL has a question mark before any [#], the key
    is introduced by [&token=] if something other than tabs and line ends
    stands between that question mark and the fragment, and by [?token=]
    if nothing does, as after a bare question mark at the end of the
    URL. *)
Theorem token_after_question_mark self method data segs kwargs base q rq :
  build_url segs = inr (base ++ String "?" q) ->
  prepare self method data segs kwargs = inr rq ->
  contains_char "?" base = false ->
  contains_char "#" base = false ->
  rq_url rq
  = (base ++ String "?" q)
    ++ (if is_empty (before_fragment (remove_chars unsafe_url_char q))
        then "?token=" else "&token=")
    ++ api_key self.
Proof.
  intros Hu Hp Hq Hf. rewrite (prepare_url _ _ _ _ _ _ _ Hu Hp).
  unfold with_token, token_prefix.
  rewrite (query_after_question_mark base q Hq Hf).
  destruct (is_empty _); reflexivity.
Qed.

Lemma token_after_question_mark_witness :
  rq_url (mkRequest "get"
            "https://api.clubhouse.io/api/v3/search?page=2&token=secret"
            [("Content-Type", "application/json")] "null" [])
  = ("https://api.clubhouse.io/api/v3/search" ++ String "?" "page=2")
    ++ "&token=" ++ "secret" /\
  rq_url (mkRequest "get"
            "https://api.clubhouse.io/api/v3/search??token=secret"
            [("Content-Type", "application/json")] "null" [])
  = ("https://api.clubhouse.io/api/v3/search" ++ String "?" EmptyString)
    ++ "?token=" ++ "secret".
Proof.
  split.
  - apply (token_after_question_mark (init "secret" None) "get" JNull
             [SStr "/api/v3/search?page=2"] []
             "https://api.clubhouse.io/api/v3/search" "page=2" _);
      reflexivity.
  - apply (token_after_question_mark (init "secret" None) "get" JNull
             [SStr "search?"] []
             "https://api.clubhouse.io/api/v3/search" EmptyString _);
      reflexivity.
Defined.

(** *** The three ways a dispatch ends on a response *)

(** A status of at most 299, or an ignored one, is returned without a
    log entry, as the empty mapping for 204 and as the response
    otherwise; an unignored status from 400 to 599 is logged and raised
    as the HTTP error that holds the response. *)
Theorem request_classifies_status t self method data segs kwargs rq r w :
  prepare self method data segs kwargs = inr rq ->
  t (calls w) rq = inr r ->
  (status_code r <= 299 \/ is_ignored self (status_code r) = true ->
   _request t self method data segs kwargs w
   = (Returns (if status_code r =? 204 then EmptyDict else Raw r), sent w rq)) /\
  (400 <= status_code r < 600 -> is_ignored self (status_code r) = false ->
   _request t self method data segs kwargs w
   = (Raises (HTTPError r),
      mkWorld (calls w ++ [rq]) (log w ++ [error_message r]))).
Proof.
  intros Hp Ht. rewrite (request_dispatched _ _ _ _ _ _ _ _ _ Hp Ht). split.
  - intros [H | H]; [apply classify_at_most_299 | apply classify_ignored]; assumption.
  - intros Hs Hi. apply classify_http_error; assumption.
Qed.

Lemma request_classifies_status_witness :
  _request (Mock.scripted [Mock.not_found]) (init "secret" (Some [404]))
    "get" JNull [SStr "milestones"; SInt 9] [] empty_world
  = (Returns (Raw Mock.not_found),
     sent empty_world
       (mkRequest "get" "https://api.clubhouse.io/api/v3/milestones/9?token=secret"
          [("Content-Type", "application/json")] "null" [])) /\
  _request (Mock.scripted [Mock.not_found]) (init "secret" None)
    "get" JNull [SStr "milestones"; SInt 9] [] empty_world
  = (Raises (HTTPError Mock.not_found),
     mkWorld
       [mkRequest "get" "https://api.clubhouse.io/api/v3/milestones/9?token=secret"
          [("Content-Type", "application/json")] "null" []]
       ["Status code: 404, Content: missing"]).
Proof.
  split.
  - apply (request_classifies_status (Mock.scripted [Mock.not_found])
             (init "secret" (Some [404])) "get" JNull [SStr "milestones"; SInt 9] []
             _ Mock.not_found empty_world); try reflexivity.
    right. reflexivity.
  - apply (request_classifies_status (Mock.scripted [Mock.not_found])
             (init "secret" None) "get" JNull [SStr "milestones"; SInt 9] []
             _ Mock.not_found empty_world); try reflexivity.
    cbn. lia.
Defined.
